(** * The virtualised list component of app/src/ui/lib/list/list.tsx

    A shallow embedding of the [List] React component: its props, its
    instance fields and component state, and the methods that decide
    selection, focus, re-render suppression, scroll mirroring and teardown.

    Conventions.
    - Row indices, row counts and pixel sizes are JavaScript numbers that the
      component only ever uses as integers; they are embedded as [Z].  The
      JavaScript remainder [a % b] on integers with [b <> 0] truncates towards
      zero and is [Z.rem a b] (a zero result carries no sign in [Z]).
    - [null] and [undefined] are [None].
    - Methods that mutate the instance or call out of the component
      (callback props, React, the DOM, timers, the id pool) are computations
      in the monad [M]: they thread a [World] and return the calls they made,
      in order, as a list of [Effect]s.
    - Code of other modules ([shallowEquals], [createUniqueId], the build
      constant [__WIN32__]) is taken as a parameter of the method using it.
    - [this.setState] merges the given keys into the state at once.
    - The browser, where a property is about what it does with the calls of
      the component (scroll events after a [scrollTop] assignment, immediates,
      the resize observer), is modelled next to the method that uses it. *)

From Stdlib Require Import ZArith List Bool String Lia DecimalString DecimalZ.
From Equations Require Import Equations.
Import ListNotations.
Local Open Scope Z_scope.

(** ** Data *)

(** [direction: 'up' | 'down'] *)
Inductive Direction : Type := up | down.

(** The [kind] tag of a [SelectionSource]. *)
Inductive SourceKind : Type := mouseclick | hover | keyboard.

(** [lastScroll: 'grid' | 'fake' | null] is an [option Scroller]. *)
Inductive Scroller : Type := grid_scroller | fake_scroller.

(** A DOM node, known by its identity only. *)
Definition HTMLElement : Type := Z.

(** The mounted [Grid] component behind [this.grid]; [ReactDOM.findDOMNode]
    gives its DOM node, or null. *)
Record GridComponent : Type := { domNode : option HTMLElement }.

Definition findDOMNode (g : GridComponent) : option HTMLElement := domNode g.

(** What the handlers read of a [React.KeyboardEvent]. *)
Record KeyboardEvent : Type := {
  key : string;
  defaultPrevented : bool
}.

(** [rowHeight: number | ((info: { index: number }) => number)] *)
Inductive RowHeight : Type :=
| FixedHeight (h : Z)
| HeightOf (f : Z -> Z).

(** [IListProps], with the props the embedded methods read ([rowRenderer],
    [id] and [ariaMode] only reach the elements that [render] and [renderRow]
    assemble).  A callback prop whose result the component ignores is embedded
    by whether it was supplied; calling it is an [Effect].  [onRowKeyDown]
    answers whether the consumer called [event.preventDefault()].  [A] is the
    type of [invalidationProps] (declared [any]). *)
Module Props.
Record IListProps (A : Type) : Type := {
  rowCount : Z;
  rowHeight : RowHeight;
  selectedRow : Z;
  onRowClick : bool;
  onSelectionChanged : bool;
  onRowKeyDown : option (Z -> KeyboardEvent -> bool);
  onRowMouseDown : bool;
  canSelectRow : option (Z -> bool);
  onScroll : bool;
  invalidationProps : A;
  scrollToRow : option Z;
  selectOnHover : option bool;
  focusOnHover : option bool
}.
Arguments rowCount {A} _.
Arguments rowHeight {A} _.
Arguments selectedRow {A} _.
Arguments onRowClick {A} _.
Arguments onSelectionChanged {A} _.
Arguments onRowKeyDown {A} _.
Arguments onRowMouseDown {A} _.
Arguments canSelectRow {A} _.
Arguments onScroll {A} _.
Arguments invalidationProps {A} _.
Arguments scrollToRow {A} _.
Arguments selectOnHover {A} _.
Arguments focusOnHover {A} _.
End Props.

(** [IListState] *)
Record IListState : Type := {
  height : option Z;
  width : option Z;
  rowIdPrefix : option string
}.

(** The private fields of a [List] instance, and its React state.  The field
    [list] of the source is [listElement] here; a [ResizeObserver] is embedded
    as the targets it observes. *)
Record Instance : Type := {
  focusItem : option HTMLElement;
  fakeScroll : option HTMLElement;
  scrollToRow : Z;
  focusRow : Z;
  lastScroll : option Scroller;
  listElement : option HTMLElement;
  grid : option GridComponent;
  resizeObserver : option (list HTMLElement);
  updateSizeTimeoutId : option Z;
  state : IListState
}.

(** The instance together with the part of the JavaScript runtime its methods
    change: the callbacks queued by [setImmediate] and not yet run or cleared
    (id and the [target] argument), and the id the next [setImmediate]
    returns. *)
Record World : Type := {
  inst : Instance;
  immediates : list (Z * HTMLElement);
  nextImmediate : Z
}.

(** A call out of the component. *)
Inductive Effect : Type :=
| CallOnSelectionChanged (row : Z) (source : SourceKind)
| CallOnRowKeyDown (row : Z)
| CallOnRowClick (row : Z) (source : SourceKind)
| CallOnRowMouseDown (row : Z)
| CallOnScroll (scrollTop clientHeight : Z)
| PreventDefault
| ReactForceUpdate
| GridForceUpdate
| FocusElement (element : HTMLElement)
| SetScrollTop (element : HTMLElement) (scrollTop : Z)
| CreateUniqueId (prefix : string)
| ReleaseUniqueId (id : string).

(** ** The monad of methods *)

Record Outcome (A : Type) : Type := {
  value : A;
  after : World;
  effects : list Effect
}.
Arguments value {A} _.
Arguments after {A} _.
Arguments effects {A} _.

Definition M (A : Type) : Type := World -> Outcome A.

Definition ret {A : Type} (a : A) : M A :=
  fun w => {| value := a; after := w; effects := [] |}.

Definition bind {A B : Type} (m : M A) (k : A -> M B) : M B :=
  fun w =>
    let o1 := m w in
    let o2 := k (value o1) (after o1) in
    {| value := value o2; after := after o2;
       effects := effects o1 ++ effects o2 |}.

Notation "x <- m ;; k" := (bind m (fun x => k))
  (at level 61, m at next level, right associativity).
Notation "m ;; k" := (bind m (fun _ => k))
  (at level 61, right associativity).

Definition emit (e : Effect) : M unit :=
  fun w => {| value := tt; after := w; effects := [e] |}.

Definition this : M Instance :=
  fun w => {| value := inst w; after := w; effects := [] |}.

Definition update (f : Instance -> Instance) : M unit :=
  fun w =>
    {| value := tt;
       after := {| inst := f (inst w); immediates := immediates w;
                   nextImmediate := nextImmediate w |};
       effects := [] |}.

Definition when (c : bool) (m : M unit) : M unit :=
  if c then m else ret tt.

(** Field assignments. *)
Definition set_focusItem (v : option HTMLElement) (i : Instance) : Instance :=
  {| focusItem := v; fakeScroll := fakeScroll i; scrollToRow := scrollToRow i;
     focusRow := focusRow i; lastScroll := lastScroll i;
     listElement := listElement i; grid := grid i;
     resizeObserver := resizeObserver i;
     updateSizeTimeoutId := updateSizeTimeoutId i; state := state i |}.

Definition set_fakeScroll (v : option HTMLElement) (i : Instance) : Instance :=
  {| focusItem := focusItem i; fakeScroll := v; scrollToRow := scrollToRow i;
     focusRow := focusRow i; lastScroll := lastScroll i;
     listElement := listElement i; grid := grid i;
     resizeObserver := resizeObserver i;
     updateSizeTimeoutId := updateSizeTimeoutId i; state := state i |}.

Definition set_scrollToRow (v : Z) (i : Instance) : Instance :=
  {| focusItem := focusItem i; fakeScroll := fakeScroll i; scrollToRow := v;
     focusRow := focusRow i; lastScroll := lastScroll i;
     listElement := listElement i; grid := grid i;
     resizeObserver := resizeObserver i;
     updateSizeTimeoutId := updateSizeTimeoutId i; state := state i |}.

Definition set_focusRow (v : Z) (i : Instance) : Instance :=
  {| focusItem := focusItem i; fakeScroll := fakeScroll i;
     scrollToRow := scrollToRow i; focusRow := v; lastScroll := lastScroll i;
     listElement := listElement i; grid := grid i;
     resizeObserver := resizeObserver i;
     updateSizeTimeoutId := updateSizeTimeoutId i; state := state i |}.

Definition set_lastScroll (v : option Scroller) (i : Instance) : Instance :=
  {| focusItem := focusItem i; fakeScroll := fakeScroll i;
     scrollToRow := scrollToRow i; focusRow := focusRow i; lastScroll := v;
     listElement := listElement i; grid := grid i;
     resizeObserver := resizeObserver i;
     updateSizeTimeoutId := updateSizeTimeoutId i; state := state i |}.

Definition set_listElement (v : option HTMLElement) (i : Instance) : Instance :=
  {| focusItem := focusItem i; fakeScroll := fakeScroll i;
     scrollToRow := scrollToRow i; focusRow := focusRow i;
     lastScroll := lastScroll i; listElement := v; grid := grid i;
     resizeObserver := resizeObserver i;
     updateSizeTimeoutId := updateSizeTimeoutId i; state := state i |}.

Definition set_grid (v : option GridComponent) (i : Instance) : Instance :=
  {| focusItem := focusItem i; fakeScroll := fakeScroll i;
     scrollToRow := scrollToRow i; focusRow := focusRow i;
     lastScroll := lastScroll i; listElement := listElement i; grid := v;
     resizeObserver := resizeObserver i;
     updateSizeTimeoutId := updateSizeTimeoutId i; state := state i |}.

Definition set_resizeObserver (v : option (list HTMLElement)) (i : Instance)
  : Instance :=
  {| focusItem := focusItem i; fakeScroll := fakeScroll i;
     scrollToRow := scrollToRow i; focusRow := focusRow i;
     lastScroll := lastScroll i; listElement := listElement i; grid := grid i;
     resizeObserver := v;
     updateSizeTimeoutId := updateSizeTimeoutId i; state := state i |}.

Definition set_updateSizeTimeoutId (v : option Z) (i : Instance) : Instance :=
  {| focusItem := focusItem i; fakeScroll := fakeScroll i;
     scrollToRow := scrollToRow i; focusRow := focusRow i;
     lastScroll := lastScroll i; listElement := listElement i; grid := grid i;
     resizeObserver := resizeObserver i;
     updateSizeTimeoutId := v; state := state i |}.

Definition set_state (v : IListState) (i : Instance) : Instance :=
  {| focusItem := focusItem i; fakeScroll := fakeScroll i;
     scrollToRow := scrollToRow i; focusRow := focusRow i;
     lastScroll := lastScroll i; listElement := listElement i; grid := grid i;
     resizeObserver := resizeObserver i;
     updateSizeTimeoutId := updateSizeTimeoutId i; state := v |}.

(** [this.setState({ width, height })]: the given keys are merged into the
    state. *)
Definition setState_size (w h : option Z) : M unit :=
  update (fun i =>
    set_state {| height := h; width := w;
                 rowIdPrefix := rowIdPrefix (state i) |} i).

(** [this.setState({ rowIdPrefix })] *)
Definition setState_rowIdPrefix (p : string) : M unit :=
  update (fun i =>
    set_state {| height := height (state i); width := width (state i);
                 rowIdPrefix := Some p |} i).

(** ** The JavaScript runtime: immediates and the resize observer *)

(** [setImmediate(this.onResized, target, contentRect)] queues the callback
    and returns its id. *)
Definition setImmediate (target : HTMLElement) : M Z :=
  fun w =>
    {| value := nextImmediate w;
       after := {| inst := inst w;
                   immediates := immediates w ++ [(nextImmediate w, target)];
                   nextImmediate := nextImmediate w + 1 |};
       effects := [] |}.

(** [clearImmediate(id)] drops the queued callback. *)
Definition clearImmediate (id : Z) : M unit :=
  fun w =>
    {| value := tt;
       after := {| inst := inst w;
                   immediates :=
                     filter (fun p => negb (fst p =? id)%Z) (immediates w);
                   nextImmediate := nextImmediate w |};
       effects := [] |}.

(** [this.resizeObserver.disconnect()] *)
Definition disconnect : M unit :=
  update (fun i =>
    match resizeObserver i with
    | Some _ => set_resizeObserver (Some []) i
    | None => i
    end).

(** [this.resizeObserver.observe(element)] *)
Definition observe (element : HTMLElement) : M unit :=
  update (fun i =>
    match resizeObserver i with
    | Some targets => set_resizeObserver (Some (targets ++ [element])) i
    | None => i
    end).

(** ** Equality on optional values, as [===] has it *)

Definition option_Z_eqb (a b : option Z) : bool :=
  match a, b with
  | Some x, Some y => (x =? y)%Z
  | None, None => true
  | _, _ => false
  end.

Definition is_some {A : Type} (o : option A) : bool :=
  match o with Some _ => true | None => false end.

(** ** Selection *)

Section Selection.
Context {A : Type} (props : Props.IListProps A).

(** [private canSelectRow(rowIndex)] *)
Definition canSelectRow (rowIndex : Z) : bool :=
  match Props.canSelectRow props with
  | Some f => f rowIndex
  | None => true
  end.

(** A run of the search loop: the values [nextRow] took, in order (each one
    evaluation of the remainder and one call of [canSelectRow]), and the
    value returned. *)
Definition probe (nextRow : Z) (rest : list Z * option Z)
  : list Z * option Z :=
  (nextRow :: fst rest, snd rest).

(** [for (let i = 1; i < rowDelta; i++) { ... }] of [nextSelectableRow],
    from the value [i] of the loop variable on. *)
Equations? nextSelectableRow_loop (direction : Direction)
    (baseRow rowDelta : Z) (i : Z) : list Z * option Z
  by wf (Z.to_nat (rowDelta - i)) lt :=
  nextSelectableRow_loop direction baseRow rowDelta i
    with Z_lt_ge_dec i rowDelta := {
    | left _ =>
        let delta := match direction with up => i * -1 | down => i end in
        let nextRow :=
          Z.rem (baseRow + delta + Props.rowCount props)
                (Props.rowCount props) in
        if canSelectRow nextRow then ([nextRow], Some nextRow)
        else probe nextRow
               (nextSelectableRow_loop direction baseRow rowDelta (i + 1))
    | right _ => ([], None) }.
Proof. lia. Qed.

Definition nextSelectableRow_run (direction : Direction) (row : Z)
  : list Z * option Z :=
  let baseRow := Z.min (Z.max row (-1)) (Props.rowCount props) in
  let startOutsideList :=
    (row <? 0)%Z || (row >=? Props.rowCount props)%Z in
  let rowDelta :=
    if startOutsideList then Props.rowCount props + 1
    else Props.rowCount props in
  nextSelectableRow_loop direction baseRow rowDelta 1.

(** [public nextSelectableRow(direction, row): number | null] *)
Definition nextSelectableRow (direction : Direction) (row : Z) : option Z :=
  snd (nextSelectableRow_run direction row).

(** The rows the search looked at. *)
Definition nextSelectableRow_probes (direction : Direction) (row : Z)
  : list Z :=
  fst (nextSelectableRow_run direction row).

(** [public forceUpdate(callback?)] *)
Definition forceUpdate : M unit :=
  emit ReactForceUpdate ;;
  i <- this ;;
  when (is_some (grid i)) (emit GridForceUpdate).

(** [private scrollRowToVisible(row)]; [focusOnHover !== false] holds for
    [true] and for [undefined]. *)
Definition scrollRowToVisible (row : Z) : M unit :=
  update (set_scrollToRow row) ;;
  when (match Props.focusOnHover props with
        | Some false => false
        | _ => true
        end)
       (update (set_focusRow row)) ;;
  forceUpdate.

(** [private moveSelection(direction, event)] *)
Definition moveSelection (direction : Direction) : M unit :=
  match nextSelectableRow direction (Props.selectedRow props) with
  | Some newRow =>
      when (Props.onSelectionChanged props)
           (emit (CallOnSelectionChanged newRow keyboard)) ;;
      scrollRowToVisible newRow
  | None => ret tt
  end.

(** [private handleKeyDown = (event) => ...] *)
Definition handleKeyDown (event : KeyboardEvent) : M unit :=
  let row := Props.selectedRow props in
  prevented <-
    match Props.onRowKeyDown props with
    | Some callback =>
        if (row >=? 0)%Z
        then emit (CallOnRowKeyDown row) ;; ret (callback row event)
        else ret false
    | None => ret false
    end ;;
  if defaultPrevented event || prevented then ret tt
  else if String.eqb (key event) "ArrowDown"%string
  then moveSelection down ;; emit PreventDefault
  else if String.eqb (key event) "ArrowUp"%string
  then moveSelection up ;; emit PreventDefault
  else ret tt.

(** [private onRowKeyDown = (rowIndex, event) => ...] *)
Definition onRowKeyDown (rowIndex : Z) (event : KeyboardEvent) : M unit :=
  prevented <-
    match Props.onRowKeyDown props with
    | Some callback =>
        emit (CallOnRowKeyDown rowIndex) ;; ret (callback rowIndex event)
    | None => ret false
    end ;;
  when (negb (defaultPrevented event || prevented) && Props.onRowClick props)
    (when (String.eqb (key event) "Enter" || String.eqb (key event) " ")
       (emit (CallOnRowClick rowIndex keyboard) ;; emit PreventDefault)).

(** [private onRowMouseOver = (row, event) => ...]; [selectOnHover] is
    truthy for [true] only. *)
Definition onRowMouseOver (row : Z) : M unit :=
  when (match Props.selectOnHover props with
        | Some true => true
        | _ => false
        end && canSelectRow row)
    (when (negb (row =? Props.selectedRow props)%Z
           && Props.onSelectionChanged props)
       (emit (CallOnSelectionChanged row hover) ;;
        scrollRowToVisible row)).

(** [private onRowMouseDown = (row, event) => ...] *)
Definition onRowMouseDown (row : Z) : M unit :=
  when (canSelectRow row)
    (when (Props.onRowMouseDown props) (emit (CallOnRowMouseDown row)) ;;
     when (negb (row =? Props.selectedRow props)%Z
           && Props.onSelectionChanged props)
       (emit (CallOnSelectionChanged row mouseclick))).

(** [private onRowClick = (row, event) => ...] *)
Definition onRowClick (row : Z) : M unit :=
  when (canSelectRow row && Props.onRowClick props)
    (emit (CallOnRowClick row mouseclick)).

(** [public focus()] *)
Definition focus : M unit :=
  if (Props.selectedRow props >=? 0)%Z
     && (Props.selectedRow props <? Props.rowCount props)%Z
  then scrollRowToVisible (Props.selectedRow props)
  else
    i <- this ;;
    match grid i with
    | Some g =>
        match findDOMNode g with
        | Some element => emit (FocusElement element)
        | None => ret tt
        end
    | None => ret tt
    end.
End Selection.

(** ** Lifecycle *)

(** [public constructor(props)]: the field initialisers, an empty state, and a
    [ResizeObserver] when the platform has one. *)
Definition constructor (hasResizeObserver : bool) : Instance :=
  {| focusItem := None; fakeScroll := None; scrollToRow := -1;
     focusRow := -1; lastScroll := None; listElement := None; grid := None;
     resizeObserver := if hasResizeObserver then Some [] else None;
     updateSizeTimeoutId := None;
     state := {| height := None; width := None; rowIdPrefix := None |} |}.

(** The callback given to [new ResizeObserverClass(entries => ...)]; an entry
    is embedded as its [target]. *)
Fixpoint resizeObserverCallback (entries : list HTMLElement) : M unit :=
  match entries with
  | [] => ret tt
  | target :: rest =>
      i <- this ;;
      when (option_Z_eqb (Some target) (listElement i))
        (match updateSizeTimeoutId i with
         | Some id => clearImmediate id
         | None => ret tt
         end ;;
         id <- setImmediate target ;;
         update (set_updateSizeTimeoutId (Some id))) ;;
      resizeObserverCallback rest
  end.

(** [private onResized = (target, contentRect) => ...], with what the DOM
    answers for [target.offsetWidth] and [target.offsetHeight]. *)
Definition onResized (offsetWidth offsetHeight : Z) : M unit :=
  update (set_updateSizeTimeoutId None) ;;
  i <- this ;;
  when (negb (option_Z_eqb (width (state i)) (Some offsetWidth))
        || negb (option_Z_eqb (height (state i)) (Some offsetHeight)))
    (setState_size (Some offsetWidth) (Some offsetHeight)).

(** The runtime runs a queued immediate: the entry leaves the queue and
    [onResized] is called.  An id that is not queued runs nothing. *)
Definition runImmediate (id offsetWidth offsetHeight : Z) : M unit :=
  fun w =>
    if existsb (fun p => (fst p =? id)%Z) (immediates w)
    then (clearImmediate id ;; onResized offsetWidth offsetHeight) w
    else ret tt w.

(** [private onRef = (element) => ...] *)
Definition onRef (element : option HTMLElement) : M unit :=
  update (set_listElement element) ;;
  i <- this ;;
  when (is_some (resizeObserver i))
    (disconnect ;;
     match element with
     | Some e => observe e
     | None => setState_size None None
     end).

(** [private onFocusedItemRef], [private onGridRef], [private onFakeScrollRef] *)
Definition onFocusedItemRef (element : option HTMLElement) : M unit :=
  update (set_focusItem element).

Definition onGridRef (ref : option GridComponent) : M unit :=
  update (set_grid ref).

Definition onFakeScrollRef (ref : option HTMLElement) : M unit :=
  update (set_fakeScroll ref).

(** [public componentWillMount()]; [createUniqueId] is the id pool's. *)
Definition componentWillMount (createUniqueId : string -> string) : M unit :=
  emit (CreateUniqueId "ListRow") ;;
  setState_rowIdPrefix (createUniqueId "ListRow"%string).

(** [public componentWillUnmount()]; a string is truthy when it is not
    empty. *)
Definition componentWillUnmount : M unit :=
  i <- this ;;
  match updateSizeTimeoutId i with
  | Some id => clearImmediate id ;; update (set_updateSizeTimeoutId None)
  | None => ret tt
  end ;;
  i <- this ;;
  when (is_some (resizeObserver i)) disconnect ;;
  i <- this ;;
  match rowIdPrefix (state i) with
  | Some prefix =>
      when (negb (String.eqb prefix "")) (emit (ReleaseUniqueId prefix))
  | None => ret tt
  end.

Section Update.
Context {A : Type} (shallowEquals : A -> A -> bool).
Context (props : Props.IListProps A).

(** [public componentDidUpdate(prevProps, prevState)] *)
Definition componentDidUpdate (prevProps : Props.IListProps A)
    (prevState : IListState) : M unit :=
  i <- this ;;
  match (focusRow i >=? 0)%Z, focusItem i with
  | true, Some item =>
      emit (FocusElement item) ;;
      update (set_focusRow (-1)) ;;
      forceUpdate
  | _, _ =>
      when (is_some (grid i))
        (let gridHasUpdatedAlready :=
           negb (Props.rowCount props =? Props.rowCount prevProps)%Z
           || negb (option_Z_eqb (width (state i)) (width prevState))
           || negb (option_Z_eqb (height (state i)) (height prevState)) in
         when (negb gridHasUpdatedAlready)
           (let selectedRowChanged :=
              negb (Props.selectedRow prevProps
                    =? Props.selectedRow props)%Z in
            let invalidationPropsChanged :=
              negb (shallowEquals (Props.invalidationProps prevProps)
                                  (Props.invalidationProps props)) in
            when (selectedRowChanged || invalidationPropsChanged)
              (emit GridForceUpdate)))
  end.
End Update.

(** ** The fake scroll bar *)

(** What [renderFakeScroll] renders: the [height] style of the outer
    [div.fake-scroll] and of the spacer [div] inside it. *)
Record FakeScrollBar : Type := {
  containerHeight : Z;
  spacerHeight : Z
}.

(** The props [renderGrid] gives the [Grid] that are not constants. *)
Record GridProps : Type := {
  gridWidth : Z;
  gridHeight : Z;
  gridRowCount : Z;
  gridRowHeight : RowHeight;
  gridScrollToRow : Z;
  gridTabIndex : Z
}.

(** [for (let i = 0; i < rowCount; i++) { totalHeight += rowHeight({ index: i }) }] *)
Equations? renderFakeScroll_loop (rowHeight : Z -> Z) (rowCount : Z)
    (i totalHeight : Z) : Z
  by wf (Z.to_nat (rowCount - i)) lt :=
  renderFakeScroll_loop rowHeight rowCount i totalHeight
    with Z_lt_ge_dec i rowCount := {
    | left _ =>
        renderFakeScroll_loop rowHeight rowCount (i + 1)
          (totalHeight + rowHeight i)
    | right _ => totalHeight }.
Proof. lia. Qed.

Section Scrolling.
Context {A : Type} (WIN32 : bool) (props : Props.IListProps A).

(** [private renderGrid(width, height)]: the row to scroll to is handed to
    the grid once and then forgotten. *)
Definition renderGrid (width height : Z) : M GridProps :=
  i <- this ;;
  let scrollToRow :=
    match Props.scrollToRow props with
    | Some r => r
    | None => scrollToRow i
    end in
  update (set_scrollToRow (-1)) ;;
  let tabIndex :=
    if (Props.selectedRow props <? 0)%Z && (Props.rowCount props >? 0)%Z
    then 0 else -1 in
  ret {| gridWidth := width; gridHeight := height;
         gridRowCount := Props.rowCount props;
         gridRowHeight := Props.rowHeight props;
         gridScrollToRow := scrollToRow; gridTabIndex := tabIndex |}.

(** [private renderFakeScroll(height)] *)
Definition renderFakeScroll (height : Z) : FakeScrollBar :=
  let totalHeight :=
    match Props.rowHeight props with
    | FixedHeight h => h * Props.rowCount props
    | HeightOf f => renderFakeScroll_loop f (Props.rowCount props) 0 0
    end in
  {| containerHeight := height; spacerHeight := totalHeight |}.

(** [private renderContents(width, height)] *)
Definition renderContents (width height : Z)
  : M (GridProps * option FakeScrollBar) :=
  g <- renderGrid width height ;;
  ret (g, if WIN32 then Some (renderFakeScroll height) else None).

(** [private onFakeScroll = (e) => ...], with [e.currentTarget.scrollTop] *)
Definition onFakeScroll (scrollTop : Z) : M unit :=
  i <- this ;;
  match lastScroll i with
  | Some grid_scroller => update (set_lastScroll None)
  | _ =>
      update (set_lastScroll (Some fake_scroller)) ;;
      match grid i with
      | Some g =>
          match findDOMNode g with
          | Some element => emit (SetScrollTop element scrollTop)
          | None => ret tt
          end
      | None => ret tt
      end
  end.

(** [private onScroll = ({ scrollTop, clientHeight }) => ...] *)
Definition onScroll (scrollTop clientHeight : Z) : M unit :=
  when (Props.onScroll props) (emit (CallOnScroll scrollTop clientHeight)) ;;
  i <- this ;;
  match (if WIN32 then fakeScroll i else None) with
  | Some fake =>
      match lastScroll i with
      | Some fake_scroller => update (set_lastScroll None)
      | _ =>
          update (set_lastScroll (Some grid_scroller)) ;;
          emit (SetScrollTop fake scrollTop)
      end
  | None => ret tt
  end.
End Scrolling.

(** The total height of the list, as a sum over the rows. *)
Definition totalListHeight {A : Type} (props : Props.IListProps A) : Z :=
  match Props.rowHeight props with
  | FixedHeight h => h * Props.rowCount props
  | HeightOf f =>
      fold_right Z.add 0
        (map (fun k => f (Z.of_nat k)) (seq 0 (Z.to_nat (Props.rowCount props))))
  end.

(** ** The component in its environment *)

(** What can reach a mounted instance: React (refs, [componentDidUpdate]),
    the user (keys, pointer, scrolling), the runtime (resize notifications,
    due immediates) and the owner (the public methods). *)
Inductive Stimulus (A : Type) : Type :=
| KeyDown (event : KeyboardEvent)
| RowKeyDown (rowIndex : Z) (event : KeyboardEvent)
| RowClick (row : Z)
| RowMouseOver (row : Z)
| RowMouseDown (row : Z)
| DidUpdate (prevProps : Props.IListProps A) (prevState : IListState)
| ListRef (element : option HTMLElement)
| GridRef (ref : option GridComponent)
| FakeScrollRef (ref : option HTMLElement)
| FocusedItemRef (element : option HTMLElement)
| Resize (entries : list HTMLElement)
| ImmediateDue (id offsetWidth offsetHeight : Z)
| GridScrolled (scrollTop clientHeight : Z)
| FakeScrolled (scrollTop : Z)
| Rendered (width height : Z)
| FocusCalled
| ForceUpdateCalled.
Arguments KeyDown {A} _.
Arguments RowKeyDown {A} _ _.
Arguments RowClick {A} _.
Arguments RowMouseOver {A} _.
Arguments RowMouseDown {A} _.
Arguments DidUpdate {A} _ _.
Arguments ListRef {A} _.
Arguments GridRef {A} _.
Arguments FakeScrollRef {A} _.
Arguments FocusedItemRef {A} _.
Arguments Resize {A} _.
Arguments ImmediateDue {A} _ _ _.
Arguments GridScrolled {A} _ _.
Arguments FakeScrolled {A} _.
Arguments Rendered {A} _ _.
Arguments FocusCalled {A}.
Arguments ForceUpdateCalled {A}.

Section Environment.
Context {A : Type} (WIN32 : bool) (shallowEquals : A -> A -> bool).

(** The method a stimulus runs, under the props of that moment.  The resize
    callback exists only when the observer does. *)
Definition deliver (props : Props.IListProps A) (s : Stimulus A) : M unit :=
  match s with
  | KeyDown event => handleKeyDown props event
  | RowKeyDown rowIndex event => onRowKeyDown props rowIndex event
  | RowClick row => onRowClick props row
  | RowMouseOver row => onRowMouseOver props row
  | RowMouseDown row => onRowMouseDown props row
  | DidUpdate prevProps prevState =>
      componentDidUpdate shallowEquals props prevProps prevState
  | ListRef element => onRef element
  | GridRef ref => onGridRef ref
  | FakeScrollRef ref => onFakeScrollRef ref
  | FocusedItemRef element => onFocusedItemRef element
  | Resize entries =>
      i <- this ;;
      when (is_some (resizeObserver i)) (resizeObserverCallback entries)
  | ImmediateDue id offsetWidth offsetHeight =>
      runImmediate id offsetWidth offsetHeight
  | GridScrolled scrollTop clientHeight =>
      onScroll WIN32 props scrollTop clientHeight
  | FakeScrolled scrollTop => onFakeScroll scrollTop
  | Rendered width height => renderContents WIN32 props width height ;; ret tt
  | FocusCalled => focus props
  | ForceUpdateCalled => forceUpdate
  end.

Fixpoint run (history : list (Props.IListProps A * Stimulus A)) : M unit :=
  match history with
  | [] => ret tt
  | (props, s) :: rest => deliver props s ;; run rest
  end.
End Environment.

(** A freshly constructed instance after [componentWillMount]. *)
Definition mounted (createUniqueId : string -> string)
    (hasResizeObserver : bool) (firstImmediate : Z) : World :=
  after (componentWillMount createUniqueId
           {| inst := constructor hasResizeObserver; immediates := [];
              nextImmediate := firstImmediate |}).

(** ** Scrolling in the browser *)

(** A scroll event as its handler sees it. *)
Inductive ScrollEvent : Type :=
| GridScroll (scrollTop clientHeight : Z)
| FakeScroll (scrollTop : Z).

(** The scroll state of an element. *)
Record ScrollBox : Type := {
  boxScrollTop : Z;
  boxScrollMax : Z;
  boxClientHeight : Z
}.

Definition Dom : Type := HTMLElement -> ScrollBox.

(** [element.scrollTop = v]: the position is clamped to the scrollable range;
    a scroll event follows when the position moved. *)
Definition assignScrollTop (dom : Dom) (element : HTMLElement) (v : Z)
  : Dom * option Z :=
  let box := dom element in
  let top := Z.max 0 (Z.min v (boxScrollMax box)) in
  if (top =? boxScrollTop box)%Z then (dom, None)
  else
    (fun e =>
       if (e =? element)%Z
       then {| boxScrollTop := top; boxScrollMax := boxScrollMax box;
               boxClientHeight := boxClientHeight box |}
       else dom e,
     Some top).

(** The scroll event of an element reaches [onFakeScroll] when the element is
    the fake scroll bar and [onScroll] when it is the grid's node. *)
Definition scrollListener (i : Instance) (dom : Dom) (element : HTMLElement)
    (top : Z) : option ScrollEvent :=
  if option_Z_eqb (fakeScroll i) (Some element) then Some (FakeScroll top)
  else
    match grid i with
    | Some g =>
        if option_Z_eqb (findDOMNode g) (Some element)
        then Some (GridScroll top (boxClientHeight (dom element)))
        else None
    | None => None
    end.

(** The browser applies the scroll assignments a handler made and collects the
    scroll events they cause. *)
Fixpoint settle (i : Instance) (dom : Dom) (effs : list Effect)
  : Dom * list ScrollEvent :=
  match effs with
  | [] => (dom, [])
  | SetScrollTop element v :: rest =>
      let moved := assignScrollTop dom element v in
      let later := settle i (fst moved) rest in
      (fst later,
       match snd moved with
       | Some top =>
           match scrollListener i (fst moved) element top with
           | Some e => e :: snd later
           | None => snd later
           end
       | None => snd later
       end)
  | _ :: rest => settle i dom rest
  end.

(** The scroll assignments among the calls made. *)
Fixpoint scrollWrites (effs : list Effect) : list (HTMLElement * Z) :=
  match effs with
  | [] => []
  | SetScrollTop element v :: rest => (element, v) :: scrollWrites rest
  | _ :: rest => scrollWrites rest
  end.

Record Cascade : Type := {
  dom : Dom;
  queue : list ScrollEvent;
  world : World;
  trace : list Effect
}.

Section Cascade.
Context {A : Type} (WIN32 : bool) (props : Props.IListProps A).

Definition handleScroll (e : ScrollEvent) : M unit :=
  match e with
  | GridScroll scrollTop clientHeight =>
      onScroll WIN32 props scrollTop clientHeight
  | FakeScroll scrollTop => onFakeScroll scrollTop
  end.

(** The event loop: at most [fuel] queued scroll events are handled, each
    followed by the events its handler caused. *)
Fixpoint pump (fuel : nat) (c : Cascade) : Cascade :=
  match fuel, queue c with
  | S fuel', e :: rest =>
      let o := handleScroll e (world c) in
      let settled := settle (inst (after o)) (dom c) (effects o) in
      pump fuel'
        {| dom := fst settled; queue := rest ++ snd settled;
           world := after o; trace := trace c ++ effects o |}
  | _, _ => c
  end.
End Cascade.

(** ** Reference notions and sample inputs *)

(** The row [i] steps away from [baseRow] in a direction, on the circle of
    the [rowCount] rows. *)
Definition circularStep {A : Type} (props : Props.IListProps A)
    (direction : Direction) (baseRow i : Z) : Z :=
  (baseRow + match direction with up => - i | down => i end)
    mod Props.rowCount props.

(** Props for a list of [rowCount] rows, every callback supplied. *)
Definition listProps (rowCount selectedRow : Z)
    (canSelectRow : option (Z -> bool)) (selectOnHover focusOnHover : option bool)
  : Props.IListProps Z :=
  {| Props.rowCount := rowCount;
     Props.rowHeight := FixedHeight 30;
     Props.selectedRow := selectedRow;
     Props.onRowClick := true;
     Props.onSelectionChanged := true;
     Props.onRowKeyDown := None;
     Props.onRowMouseDown := true;
     Props.canSelectRow := canSelectRow;
     Props.onScroll := true;
     Props.invalidationProps := 0;
     Props.scrollToRow := None;
     Props.selectOnHover := selectOnHover;
     Props.focusOnHover := focusOnHover |}.

(** Five rows, of which row 2 cannot be selected. *)
Definition fiveRowsWithoutTwo : Props.IListProps Z :=
  listProps 5 1 (Some (fun row => negb (row =? 2)%Z)) None None.

(** Two rows, of which row 0 (a group header, say) cannot be selected. *)
Definition headerFirst : Props.IListProps Z :=
  listProps 2 1 (Some (fun row => negb (row =? 0)%Z)) None None.

(** Three selectable rows; [focusOnHover] is off and [selectOnHover] is not
    set. *)
Definition keyboardOnlyProps (selectedRow : Z) : Props.IListProps Z :=
  listProps 3 selectedRow None None (Some false).

Definition sampleProps (selectedRow : Z) : Props.IListProps Z :=
  listProps 3 selectedRow None None None.

Definition arrowDown : KeyboardEvent :=
  {| key := "ArrowDown"; defaultPrevented := false |}.

(** An id pool that answers with the prefixed name. *)
Definition sampleCreateUniqueId (prefix : string) : string :=
  ("__" ++ prefix)%string.

(** An instance that is constructed but not mounted. *)
Definition unmountedWorld : World :=
  {| inst := constructor true; immediates := []; nextImmediate := 0 |}.

(** A mounted list whose container, grid and fake scroll bar are attached. *)
Definition sampleWorld : World :=
  after (run true Z.eqb
           [(sampleProps 0, ListRef (Some 1));
            (sampleProps 0, GridRef (Some {| domNode := Some 2 |}));
            (sampleProps 0, FakeScrollRef (Some 3))]
           (mounted sampleCreateUniqueId true 0)).

(** Every element scrolled to the top of a range of 1000 pixels. *)
Definition sampleDom : Dom :=
  fun _ => {| boxScrollTop := 0; boxScrollMax := 1000; boxClientHeight := 300 |}.

(** A life of the component that leaves a resize callback pending. *)
Definition resizedHistory : list (Props.IListProps Z * Stimulus Z) :=
  [(sampleProps 0, ListRef (Some 1));
   (sampleProps 0, Resize [1]);
   (sampleProps 0, ImmediateDue 0 640 480);
   (sampleProps 0, Resize [1; 1])].

(** ** Notions used in the proofs *)

(** The value of [nextRow] in iteration [i] of the search loop. *)
Definition rawStep {A : Type} (props : Props.IListProps A)
    (direction : Direction) (baseRow i : Z) : Z :=
  Z.rem (baseRow + match direction with up => i * -1 | down => i end
         + Props.rowCount props)
        (Props.rowCount props).

Definition offset (direction : Direction) (i : Z) : Z :=
  match direction with up => - i | down => i end.

(** [x mod n] for [- n <= x < 2 * n]. *)
Definition window (n x : Z) : Z :=
  if (x <? 0)%Z then x + n else if (x <? n)%Z then x else x - n.

(** The targets the resize observer still watches. *)
Definition observedTargets (i : Instance) : list HTMLElement :=
  match resizeObserver i with Some targets => targets | None => [] end.

(** The resources of a mounted instance: its state holds the id token, and
    the only immediate queued is the one [updateSizeTimeoutId] names. *)
Definition tracked (token : string) (w : World) : Prop :=
  rowIdPrefix (state (inst w)) = Some token
  /\ match updateSizeTimeoutId (inst w) with
     | Some id => exists target, immediates w = [(id, target)]
     | None => immediates w = []
     end.

(** Worlds that agree on the immediates and on the id token. *)
Definition sameResources (w w' : World) : Prop :=
  immediates w' = immediates w
  /\ updateSizeTimeoutId (inst w') = updateSizeTimeoutId (inst w)
  /\ rowIdPrefix (state (inst w')) = rowIdPrefix (state (inst w)).

(** A method that touches neither. *)
Definition quiet {X : Type} (m : M X) : Prop :=
  forall w, sameResources w (after (m w)).

(** The grid's node and the fake scroll bar are two elements. *)
Definition distinctScrollers (i : Instance) : Prop :=
  forall g element, grid i = Some g -> findDOMNode g = Some element ->
    fakeScroll i <> Some element.

(** The scroll assignments of [onScroll] and the instance it leaves. *)
Definition onScroll_writes (WIN32 : bool) (i : Instance) (scrollTop : Z)
  : list (HTMLElement * Z) :=
  match (if WIN32 then fakeScroll i else None), lastScroll i with
  | Some fake, Some fake_scroller => []
  | Some fake, _ => [(fake, scrollTop)]
  | None, _ => []
  end.

Definition onScroll_inst (WIN32 : bool) (i : Instance) : Instance :=
  match (if WIN32 then fakeScroll i else None), lastScroll i with
  | Some fake, Some fake_scroller => set_lastScroll None i
  | Some fake, _ => set_lastScroll (Some grid_scroller) i
  | None, _ => i
  end.

(** The scroll assignments of [onFakeScroll] and the instance it leaves. *)
Definition onFakeScroll_writes (i : Instance) (scrollTop : Z)
  : list (HTMLElement * Z) :=
  match lastScroll i with
  | Some grid_scroller => []
  | _ =>
      match grid i with
      | Some g =>
          match findDOMNode g with
          | Some element => [(element, scrollTop)]
          | None => []
          end
      | None => []
      end
  end.

Definition onFakeScroll_inst (i : Instance) : Instance :=
  match lastScroll i with
  | Some grid_scroller => set_lastScroll None i
  | _ => set_lastScroll (Some fake_scroller) i
  end.

(** [settle] on the scroll assignments alone. *)
Fixpoint settleWrites (i : Instance) (dom : Dom) (ws : list (HTMLElement * Z))
  : Dom * list ScrollEvent :=
  match ws with
  | [] => (dom, [])
  | (element, v) :: rest =>
      let moved := assignScrollTop dom element v in
      let later := settleWrites i (fst moved) rest in
      (fst later,
       match snd moved with
       | Some top =>
           match scrollListener i (fst moved) element top with
           | Some e => e :: snd later
           | None => snd later
           end
       | None => snd later
       end)
  end.

(** ** Rendering *)

(** [ariaMode?: 'list' | 'menu'] *)
Inductive AriaMode : Type := aria_list | aria_menu.

(** The props that only reach the rendered elements; [E] is the type of the
    elements [rowRenderer] returns. *)
Module RenderProps.
Record t (E : Type) : Type := {
  rowRenderer : Z -> E;
  id : option string;
  ariaMode : option AriaMode
}.
Arguments rowRenderer {E} _.
Arguments id {E} _.
Arguments ariaMode {E} _.
End RenderProps.

(** [`${n}`] for an integer [n]. *)
Definition string_of_number (n : Z) : string :=
  NilEmpty.string_of_int (Z.to_int n).

(** [`${prefix}-${rowIndex}`] *)
Definition rowIdOf (prefix : string) (rowIndex : Z) : string :=
  (prefix ++ "-" ++ string_of_number rowIndex)%string.

(** The props [renderRow] gives a [ListRow], without the handlers (always the
    same four) and without [key] and [style], which are those of the
    parameter.  [rowOnRef] tells whether [onRef] is [this.onFocusedItemRef]. *)
Record ListRowProps (E : Type) : Type := {
  rowElementId : option string;
  rowOnRef : bool;
  rowRowCount : Z;
  rowRowIndex : Z;
  rowSelected : bool;
  rowAriaMode : option AriaMode;
  rowTabIndex : option Z;
  rowChildren : E
}.
Arguments rowElementId {E} _.
Arguments rowOnRef {E} _.
Arguments rowRowCount {E} _.
Arguments rowRowIndex {E} _.
Arguments rowSelected {E} _.
Arguments rowAriaMode {E} _.
Arguments rowTabIndex {E} _.
Arguments rowChildren {E} _.

(** What [render] returns: the attributes of the outer [div.list] that are
    computed, and its content. *)
Record ListElement : Type := {
  listId : option string;
  listRole : string;
  listActiveDescendant : option string;
  listContent : option (GridProps * option FakeScrollBar)
}.

Section Rendering.
Context {A E : Type} (WIN32 : bool) (props : Props.IListProps A)
        (rest : RenderProps.t E).

(** [private renderRow = (params) => ...], from [params.rowIndex]. *)
Definition renderRow (i : Instance) (rowIndex : Z) : ListRowProps E :=
  let selectable := canSelectRow props rowIndex in
  let selected := (rowIndex =? Props.selectedRow props)%Z in
  let focused := (rowIndex =? focusRow i)%Z in
  let tabIndex :=
    if selectable then Some (if selected then 0 else -1) else None in
  let element := RenderProps.rowRenderer rest rowIndex in
  let id :=
    match rowIdPrefix (state i) with
    | Some prefix =>
        if negb (String.eqb prefix "") then Some (rowIdOf prefix rowIndex)
        else None
    | None => None
    end in
  {| rowElementId := id; rowOnRef := focused;
     rowRowCount := Props.rowCount props; rowRowIndex := rowIndex;
     rowSelected := selected; rowAriaMode := RenderProps.ariaMode rest;
     rowTabIndex := tabIndex; rowChildren := element |}.

(** [public render()]; [autoSize] is what [AutoSizer] measures on the path
    without a [ResizeObserver].  A number is truthy when it is not 0. *)
Definition render (autoSize : Z * Z) : M ListElement :=
  i <- this ;;
  content <-
    match resizeObserver i with
    | Some _ =>
        match width (state i), height (state i) with
        | Some w, Some h =>
            if negb (w =? 0)%Z && negb (h =? 0)%Z
            then c <- renderContents WIN32 props w h ;; ret (Some c)
            else ret None
        | _, _ => ret None
        end
    | None =>
        c <- renderContents WIN32 props (fst autoSize) (snd autoSize) ;;
        ret (Some c)
    end ;;
  let activeDescendant :=
    match rowIdPrefix (state i) with
    | Some prefix =>
        if negb (Props.selectedRow props =? -1)%Z
           && negb (String.eqb prefix "")
        then Some (rowIdOf prefix (Props.selectedRow props))
        else None
    | None => None
    end in
  let role :=
    match RenderProps.ariaMode rest with
    | Some aria_menu => "menu"%string
    | _ => "listbox"%string
    end in
  ret {| listId := RenderProps.id rest; listRole := role;
         listActiveDescendant := activeDescendant; listContent := content |}.
End Rendering.

(** ** Further notions used in the proofs *)

(** The other direction. *)
Definition opposite (direction : Direction) : Direction :=
  match direction with up => down | down => up end.

(** Every call a method makes satisfies [P]. *)
Definition emitsOnly {X : Type} (P : Effect -> Prop) (m : M X) : Prop :=
  forall w, Forall P (effects (m w)).

(** A callback about a row that the pointer or the keyboard chose is about a
    selectable row. *)
Definition aboutSelectableRow {A : Type} (props : Props.IListProps A)
    (e : Effect) : Prop :=
  match e with
  | CallOnSelectionChanged row _ => canSelectRow props row = true
  | CallOnRowMouseDown row => canSelectRow props row = true
  | CallOnRowClick row mouseclick => canSelectRow props row = true
  | _ => True
  end.

(** The resize observer, when there is one, watches the container and nothing
    else. *)
Definition observesContainer (i : Instance) : Prop :=
  forall targets, resizeObserver i = Some targets ->
    targets = match listElement i with Some e => [e] | None => [] end.

(** The key event is for a key other than the two arrows, or its default was
    prevented before the list looks at the key. *)
Definition keyIgnored {A : Type} (props : Props.IListProps A)
    (event : KeyboardEvent) : Prop :=
  defaultPrevented event = true
  \/ (exists callback, Props.onRowKeyDown props = Some callback
        /\ 0 <= Props.selectedRow props
        /\ callback (Props.selectedRow props) event = true)
  \/ (key event <> "ArrowDown"%string /\ key event <> "ArrowUp"%string).

(** The call of [props.onRowKeyDown] that [handleKeyDown] starts with. *)
Definition keyDownCallback {A : Type} (props : Props.IListProps A)
  : list Effect :=
  match Props.onRowKeyDown props with
  | Some _ =>
      if (Props.selectedRow props >=? 0)%Z
      then [CallOnRowKeyDown (Props.selectedRow props)] else []
  | None => []
  end.

(** Sample inputs of the further properties. *)
Definition measuredHistory : list (Props.IListProps Z * Stimulus Z) :=
  [(sampleProps 0, ListRef (Some 1));
   (sampleProps 0, Resize [1]);
   (sampleProps 0, ImmediateDue 0 640 480);
   (sampleProps 0, GridRef (Some {| domNode := Some 2 |}))].

Definition measuredWorld : World :=
  after (run true Z.eqb measuredHistory (mounted sampleCreateUniqueId true 0)).

Definition enterKey : KeyboardEvent :=
  {| key := "Enter"; defaultPrevented := false |}.

Definition sampleRest : RenderProps.t Z :=
  {| RenderProps.rowRenderer := fun row => row;
     RenderProps.id := None;
     RenderProps.ariaMode := None |}.

(** A mounted list of unknown size with a resize callback pending. *)
Definition pendingWorld : World :=
  {| inst :=
       {| focusItem := None; fakeScroll := None; scrollToRow := -1;
          focusRow := -1; lastScroll := None; listElement := Some 1;
          grid := None; resizeObserver := Some [1];
          updateSizeTimeoutId := Some 2;
          state := {| height := None; width := None;
                      rowIdPrefix := Some "__ListRow"%string |} |};
     immediates := [(2, 1)];
     nextImmediate := 3 |}.

(** A list whose fake scroll bar is already where the grid scrolls to. *)
Definition alignedDom : Dom :=
  fun _ => {| boxScrollTop := 40; boxScrollMax := 1000; boxClientHeight := 300 |}.

(** A method that leaves a part of the instance as it was. *)
Definition keeps {X Y : Type} (part : Instance -> Y) (m : M X) : Prop :=
  forall w, part (inst (after (m w))) = part (inst w).

(** The container and the observer of an instance. *)
Definition observation (i : Instance)
  : option HTMLElement * option (list HTMLElement) :=
  (listElement i, resizeObserver i).

(** * Properties *)

(** ** Tactics and basic facts *)

Ltac run_method :=
  unfold bind, ret, emit, this, update, when;
  cbn [value after effects inst immediates nextImmediate app].

Tactic Notation "run_method" "in" hyp(H) :=
  unfold bind, ret, emit, this, update, when in H;
  cbn [value after effects inst immediates nextImmediate app] in H.

Lemma option_Z_eqb_eq (a b : option Z) : option_Z_eqb a b = true <-> a = b.
Proof.
  destruct a as [x|], b as [y|]; simpl; split; try congruence.
  - intros H. apply Z.eqb_eq in H. congruence.
  - intros [= ->]. apply Z.eqb_refl.
Qed.

Lemma option_Z_eqb_refl (a : option Z) : option_Z_eqb a a = true.
Proof. apply option_Z_eqb_eq. reflexivity. Qed.

(** ** The search for the next selectable row *)

Section SearchFacts.
Context {A : Type} (props : Props.IListProps A).

Lemma nextSelectableRow_loop_step direction baseRow rowDelta i :
  nextSelectableRow_loop props direction baseRow rowDelta i =
  if Z_lt_ge_dec i rowDelta then
    if canSelectRow props (rawStep props direction baseRow i)
    then ([rawStep props direction baseRow i],
          Some (rawStep props direction baseRow i))
    else probe (rawStep props direction baseRow i)
           (nextSelectableRow_loop props direction baseRow rowDelta (i + 1))
  else ([], None).
Proof.
  rewrite nextSelectableRow_loop_equation_1.
  destruct (Z_lt_ge_dec i rowDelta); reflexivity.
Qed.

(** A row is returned by the first iteration whose row is selectable. *)
Lemma nextSelectableRow_loop_found direction baseRow rowDelta :
  forall m i, Z.to_nat (rowDelta - i) = m ->
  forall r,
    snd (nextSelectableRow_loop props direction baseRow rowDelta i) = Some r ->
    exists k, i <= k < rowDelta /\ r = rawStep props direction baseRow k /\
      canSelectRow props r = true /\
      forall j, i <= j < k ->
        canSelectRow props (rawStep props direction baseRow j) = false.
Proof.
  induction m as [|m IH]; intros i Hm r; rewrite nextSelectableRow_loop_step;
    destruct (Z_lt_ge_dec i rowDelta) as [Hlt|Hge]; try discriminate;
    [exfalso; lia|].
  destruct (canSelectRow props (rawStep props direction baseRow i)) eqn:Hsel;
    simpl.
  - intros [= <-]. exists i. repeat split; try lia. exact Hsel.
  - intros Hr.
    destruct (IH (i + 1) ltac:(lia) r Hr) as (k & Hk & -> & Hc & Hbefore).
    exists k. repeat split; try lia; auto.
    intros j Hj.
    destruct (Z.eq_dec j i) as [->|]; [exact Hsel|apply Hbefore; lia].
Qed.

(** Null is returned when no iteration meets a selectable row. *)
Lemma nextSelectableRow_loop_none direction baseRow rowDelta :
  forall m i, Z.to_nat (rowDelta - i) = m ->
    snd (nextSelectableRow_loop props direction baseRow rowDelta i) = None <->
    forall j, i <= j < rowDelta ->
      canSelectRow props (rawStep props direction baseRow j) = false.
Proof.
  induction m as [|m IH]; intros i Hm; rewrite nextSelectableRow_loop_step;
    destruct (Z_lt_ge_dec i rowDelta) as [Hlt|Hge];
    try (split; [intros _ j Hj; lia | reflexivity]); [exfalso; lia|].
  destruct (canSelectRow props (rawStep props direction baseRow i)) eqn:Hsel;
    simpl.
  - split; [discriminate|]. intros H.
    rewrite (H i) in Hsel by lia. discriminate.
  - rewrite (IH (i + 1)) by lia. split; intros H j Hj.
    + destruct (Z.eq_dec j i) as [->|]; [exact Hsel|apply H; lia].
    + apply H; lia.
Qed.

Lemma mod_window x : 0 < Props.rowCount props -> - Props.rowCount props <= x < 2 * Props.rowCount props ->
  x mod Props.rowCount props = window (Props.rowCount props) x.
Proof.
  intros Hn Hx. unfold window.
  destruct (Z.ltb_spec x 0); [|destruct (Z.ltb_spec x (Props.rowCount props))].
  - symmetry. apply (Z.mod_unique x (Props.rowCount props) (-1)); lia.
  - apply Z.mod_small; lia.
  - symmetry. apply (Z.mod_unique x (Props.rowCount props) 1); lia.
Qed.

(** Within one turn around the list the remainder of the code is the
    mathematical one. *)
Lemma rawStep_window direction baseRow i :
  0 < Props.rowCount props ->
  - Props.rowCount props <= baseRow + offset direction i < 2 * Props.rowCount props ->
  rawStep props direction baseRow i
  = window (Props.rowCount props) (baseRow + offset direction i).
Proof.
  intros Hn Hx. unfold rawStep.
  replace (baseRow + match direction with up => i * -1 | down => i end
           + Props.rowCount props)
    with (baseRow + offset direction i + 1 * Props.rowCount props)
    by (unfold offset; destruct direction; lia).
  rewrite Z.rem_mod_nonneg by lia.
  rewrite Z_mod_plus_full. apply mod_window; assumption.
Qed.

Lemma circularStep_window direction baseRow i :
  0 < Props.rowCount props ->
  - Props.rowCount props <= baseRow + offset direction i < 2 * Props.rowCount props ->
  circularStep props direction baseRow i
  = window (Props.rowCount props) (baseRow + offset direction i).
Proof.
  intros Hn Hx. unfold circularStep. fold (offset direction i).
  apply mod_window; assumption.
Qed.

(** Whatever the start, a returned row passed [canSelectRow]. *)
Lemma nextSelectableRow_selectable direction row r :
  nextSelectableRow props direction row = Some r ->
  canSelectRow props r = true.
Proof.
  unfold nextSelectableRow, nextSelectableRow_run. intros Hr.
  destruct (nextSelectableRow_loop_found direction _ _ _ 1 eq_refl r Hr)
    as (k & _ & _ & Hsel & _).
  exact Hsel.
Qed.
End SearchFacts.

(** C1, as the code has it.  A row returned by [nextSelectableRow] always
    satisfies [canSelectRow].  When the start row is inside the list, or the
    walk enters the list from outside ([down] from a negative row, [up] from
    a row at or past [rowCount]), the result is the first selectable row met
    when stepping 1, 2, ... rows from the start in that direction around the
    circle of rows; it lies in [0, rowCount) and differs from the start row;
    and null is returned exactly when no row of [0, rowCount) other than the
    start row is selectable. *)
Theorem nextSelectableRow_circular_search {A : Type}
    (props : Props.IListProps A) (direction : Direction) (row : Z) :
  (forall r, nextSelectableRow props direction row = Some r ->
             canSelectRow props r = true) /\
  (0 <= row < Props.rowCount props
   \/ (direction = down /\ row < 0)
   \/ (direction = up /\ Props.rowCount props <= row) ->
   let baseRow := Z.min (Z.max row (-1)) (Props.rowCount props) in
   (forall r, nextSelectableRow props direction row = Some r ->
      0 <= r < Props.rowCount props /\ r <> row /\
      exists i, 1 <= i <= Props.rowCount props /\
        r = circularStep props direction baseRow i /\
        forall j, 1 <= j < i ->
          canSelectRow props (circularStep props direction baseRow j) = false)
   /\
   (nextSelectableRow props direction row = None <->
    forall r, 0 <= r < Props.rowCount props -> r <> row ->
      canSelectRow props r = false)).
Proof.
  split; [intros r; apply nextSelectableRow_selectable|].
  unfold nextSelectableRow, nextSelectableRow_run.
  set (n := Props.rowCount props).
  set (baseRow := Z.min (Z.max row (-1)) n).
  set (rowDelta := if (row <? 0) || (row >=? n) then n + 1 else n).
  intros Hstart. cbv zeta.
  assert (Hdelta : rowDelta = if (row <? 0) || (row >=? n) then n + 1 else n)
    by reflexivity.
  clearbody rowDelta.
  assert (Hsteps : 0 < n -> forall j, 1 <= j < rowDelta ->
            - n <= baseRow + offset direction j < 2 * n).
  { intros Hn j Hj. unfold offset, baseRow.
    destruct (row <? 0) eqn:E1, (row >=? n) eqn:E2; simpl in Hdelta;
      destruct Hstart as [?|[[-> ?]|[-> ?]]]; try destruct direction; lia. }
  assert (Hraw : 0 < n -> forall j, 1 <= j < rowDelta ->
            rawStep props direction baseRow j
            = circularStep props direction baseRow j).
  { intros Hn j Hj. rewrite rawStep_window, circularStep_window; auto. }
  split.
  - intros r Hr.
    destruct (nextSelectableRow_loop_found props direction baseRow rowDelta
                _ 1 eq_refl r Hr) as (k & Hk & Hrk & Hsel & Hbefore).
    assert (Hn : 0 < n).
    { destruct (row <? 0) eqn:E1, (row >=? n) eqn:E2; simpl in Hdelta; lia. }
    assert (Hw := rawStep_window props direction baseRow k Hn (Hsteps Hn k Hk)).
    fold n in Hw. rewrite <- Hrk in Hw.
    assert (Hrange : 0 <= r < n /\ r <> row /\ k <= n).
    { unfold window, offset, baseRow in Hw.
      destruct (row <? 0) eqn:E1, (row >=? n) eqn:E2; simpl in Hdelta;
        destruct Hstart as [?|[[-> ?]|[-> ?]]]; try destruct direction;
        repeat match type of Hw with
               | context [?a <? ?b] => destruct (Z.ltb_spec a b)
               end; lia. }
    destruct Hrange as (Hr1 & Hr2 & Hr3).
    split; [exact Hr1|]. split; [exact Hr2|].
    exists k. split; [lia|]. split.
    + rewrite <- Hraw by auto. exact Hrk.
    + intros j Hj. rewrite <- Hraw by (auto; lia). apply Hbefore. lia.
  - rewrite (nextSelectableRow_loop_none props direction baseRow rowDelta
               _ 1 eq_refl).
    split.
    + intros Hall r Hr Hne.
      assert (Hn : 0 < n) by lia.
      set (j := match direction with
                | down => if row <? 0 then r + 1
                          else if row <? r then r - row else r - row + n
                | up => if row >=? n then n - r
                        else if r <? row then row - r else row - r + n
                end).
      assert (Hj : 1 <= j < rowDelta
                   /\ window n (baseRow + offset direction j) = r).
      { unfold j, window, offset, baseRow.
        destruct (row <? 0) eqn:E1, (row >=? n) eqn:E2; simpl in Hdelta;
          destruct Hstart as [?|[[-> ?]|[-> ?]]]; try lia;
          try destruct direction;
          repeat match goal with
                 | |- context [?a <? ?b] => destruct (Z.ltb_spec a b)
                 end; lia. }
      destruct Hj as (Hj & Hjr).
      rewrite <- Hjr. unfold n at 1. rewrite <- rawStep_window by auto.
      apply Hall. exact Hj.
    + intros Hall j Hj.
      assert (Hn : 0 < n).
      { destruct (row <? 0) eqn:E1, (row >=? n) eqn:E2; simpl in Hdelta; lia. }
      assert (Hw := rawStep_window props direction baseRow j Hn (Hsteps Hn j Hj)).
      fold n in Hw. rewrite Hw. apply Hall;
        unfold window, offset, baseRow;
        destruct (row <? 0) eqn:E1, (row >=? n) eqn:E2; simpl in Hdelta;
          destruct Hstart as [?|[[-> ?]|[-> ?]]]; try lia;
          try destruct direction;
          repeat match goal with
                 | |- context [?a <? ?b] => destruct (Z.ltb_spec a b)
                 end; lia.
Qed.

(** Down from row 1 of five rows without row 2: rows 2 and 3 are looked at,
    and the search is the walk the theorem describes. *)
Lemma nextSelectableRow_circular_search_witness :
  0 <= 1 < Props.rowCount fiveRowsWithoutTwo
  /\ (nextSelectableRow fiveRowsWithoutTwo down 1 = None <->
      forall r, 0 <= r < Props.rowCount fiveRowsWithoutTwo -> r <> 1 ->
        canSelectRow fiveRowsWithoutTwo r = false).
Proof.
  assert (Hin : 0 <= 1 < Props.rowCount fiveRowsWithoutTwo)
    by (simpl; lia).
  split; [exact Hin|].
  exact (proj2 (proj2 (nextSelectableRow_circular_search
                         fiveRowsWithoutTwo down 1) (or_introl Hin))).
Defined.

(** C1 as stated fails twice on a list of two rows whose row 0 is not
    selectable: from row 1 the search returns null although row 1 is
    selectable, and [up] from row -1 it returns -1, outside the list. *)
Lemma nextSelectableRow_claim_counterexample :
  (nextSelectableRow headerFirst down 1 = None
   /\ 0 <= 1 < Props.rowCount headerFirst
   /\ canSelectRow headerFirst 1 = true)
  /\ nextSelectableRow headerFirst up (-1) = Some (-1).
Proof. repeat split; vm_compute; congruence. Qed.

(** C2.  With [rowCount] 5 and a predicate that excludes only index 2,
    moving down from index 1 yields index 3. *)
Example nextSelectableRow_down_from_1_skips_2 :
  Props.rowCount fiveRowsWithoutTwo = 5
  /\ (forall row, canSelectRow fiveRowsWithoutTwo row = negb (row =? 2))
  /\ nextSelectableRow fiveRowsWithoutTwo down 1 = Some 3.
Proof. repeat split. Qed.

(** With no rows the loop ends before its first iteration. *)
Lemma nextSelectableRow_run_no_rows {A : Type} (props : Props.IListProps A)
    (direction : Direction) (row : Z) :
  Props.rowCount props = 0 ->
  nextSelectableRow_run props direction row = ([], None).
Proof.
  intros Hn. unfold nextSelectableRow_run. rewrite Hn.
  replace ((row <? 0) || (row >=? 0)) with true
    by (destruct (Z.ltb_spec row 0), (Z.geb_spec row 0); simpl; auto; lia).
  rewrite nextSelectableRow_loop_equation_1.
  destruct (Z_lt_ge_dec 1 (0 + 1)); [lia|reflexivity].
Qed.

(** Whenever the loop looks at a row there is a row: the divisor of the
    remainder is not 0. *)
Lemma nextSelectableRow_probes_divisor {A : Type} (props : Props.IListProps A)
    (direction : Direction) (row : Z) :
  nextSelectableRow_probes props direction row <> [] ->
  Props.rowCount props <> 0.
Proof.
  intros Hprobes Hn. apply Hprobes. unfold nextSelectableRow_probes.
  rewrite nextSelectableRow_run_no_rows by exact Hn. reflexivity.
Qed.

(** C9.  With no rows the search returns null from every start and in both
    directions, and looks at no row: the body of the loop, with its remainder
    by [rowCount], is never run. *)
Theorem nextSelectableRow_empty_list {A : Type} (props : Props.IListProps A)
    (direction : Direction) (row : Z) :
  Props.rowCount props = 0 ->
  nextSelectableRow props direction row = None
  /\ nextSelectableRow_probes props direction row = [].
Proof.
  intros Hn. unfold nextSelectableRow, nextSelectableRow_probes.
  rewrite nextSelectableRow_run_no_rows by exact Hn.
  split; reflexivity.
Qed.

Lemma nextSelectableRow_empty_list_witness :
  nextSelectableRow (listProps 0 (-1) None None None) up 4 = None
  /\ nextSelectableRow_probes (listProps 0 (-1) None None None) up 4 = [].
Proof. apply nextSelectableRow_empty_list. reflexivity. Defined.

(** ** The spacer of the fake scroll bar *)

(** The loop adds the heights of the rows from [i] on to its total. *)
Lemma renderFakeScroll_loop_sum (f : Z -> Z) (rowCount : Z) :
  forall m i totalHeight, Z.to_nat (rowCount - i) = m ->
    renderFakeScroll_loop f rowCount i totalHeight =
    totalHeight
    + fold_right Z.add 0 (map (fun k => f (i + Z.of_nat k)) (seq 0 m)).
Proof.
  induction m as [|m IH]; intros i totalHeight Hm;
    rewrite renderFakeScroll_loop_equation_1;
    destruct (Z_lt_ge_dec i rowCount) as [Hlt|Hge]; simpl; try lia.
  rewrite (IH (i + 1) (totalHeight + f i)) by lia.
  rewrite <- seq_shift, map_map, Z.add_0_r, <- Z.add_assoc.
  f_equal. f_equal. f_equal.
  apply map_ext. intros k. f_equal. lia.
Qed.

(** C10.  The spacer inside the fake scroll bar is as high as the whole list:
    [rowHeight * rowCount] for a fixed row height, and else the sum of
    [rowHeight({ index: i })] over the rows [i] of [0, rowCount). *)
Theorem renderFakeScroll_spacer_height {A : Type}
    (props : Props.IListProps A) (height : Z) :
  spacerHeight (renderFakeScroll props height) = totalListHeight props.
Proof.
  unfold renderFakeScroll, totalListHeight. simpl.
  destruct (Props.rowHeight props) as [h|f]; [reflexivity|].
  rewrite (renderFakeScroll_loop_sum f _ _ 0 0 eq_refl).
  rewrite Z.sub_0_r. reflexivity.
Qed.

(** Three rows of heights 10, 20 and 30. *)
Example renderFakeScroll_three_rows :
  spacerHeight
    (renderFakeScroll
       {| Props.rowCount := 3;
          Props.rowHeight := HeightOf (fun index => 10 * (index + 1));
          Props.selectedRow := -1; Props.onRowClick := false;
          Props.onSelectionChanged := false;
          Props.onRowKeyDown := None; Props.onRowMouseDown := false;
          Props.canSelectRow := None; Props.onScroll := false;
          Props.invalidationProps := tt; Props.scrollToRow := None;
          Props.selectOnHover := None;
          Props.focusOnHover := None |} 200) = 60.
Proof. reflexivity. Qed.

(** ** Pointer selection *)

Lemma scrollRowToVisible_effects {A : Type} (props : Props.IListProps A)
    (row : Z) (w : World) :
  forall r s,
    ~ In (CallOnSelectionChanged r s) (effects (scrollRowToVisible props row w)).
Proof.
  intros r s. unfold scrollRowToVisible, forceUpdate. run_method.
  destruct (Props.focusOnHover props) as [[|]|]; simpl;
    match goal with |- context [is_some ?g] => destruct (is_some g) end;
    simpl; intuition congruence.
Qed.

(** C3.  A press or a hover on the row that is the [selectedRow] prop never
    calls [onSelectionChanged]; these two handlers call it only for the row
    they were given, and only when that row is selectable and is not the
    selected row. *)
Theorem selection_changed_only_for_new_selectable_row {A : Type}
    (props : Props.IListProps A) (row : Z) (w : World) :
  let pressed := effects (onRowMouseDown props row w) in
  let hovered := effects (onRowMouseOver props row w) in
  (row = Props.selectedRow props ->
   forall r s, ~ In (CallOnSelectionChanged r s) pressed
               /\ ~ In (CallOnSelectionChanged r s) hovered)
  /\ (forall r s, In (CallOnSelectionChanged r s) pressed
                  \/ In (CallOnSelectionChanged r s) hovered ->
        r = row /\ canSelectRow props row = true
        /\ row <> Props.selectedRow props).
Proof.
  assert (Hboth : forall r s,
    In (CallOnSelectionChanged r s) (effects (onRowMouseDown props row w))
    \/ In (CallOnSelectionChanged r s) (effects (onRowMouseOver props row w)) ->
    r = row /\ canSelectRow props row = true /\ row <> Props.selectedRow props).
  { intros r s [Hin|Hin].
    - unfold onRowMouseDown in Hin. run_method in Hin.
      destruct (canSelectRow props row); [|destruct Hin].
      destruct (Z.eqb_spec row (Props.selectedRow props)) as [Heq|Hne];
        destruct (Props.onRowMouseDown props), (Props.onSelectionChanged props);
        simpl in Hin; intuition congruence.
    - unfold onRowMouseOver in Hin.
      destruct (Props.selectOnHover props) as [[|]|]; simpl in Hin;
        try contradiction.
      destruct (canSelectRow props row); simpl in Hin; [|contradiction].
      destruct (Z.eqb_spec row (Props.selectedRow props)) as [Heq|Hne];
        destruct (Props.onSelectionChanged props); simpl in Hin;
        try contradiction.
      run_method in Hin.
      destruct Hin as [Hin|Hin]; [intuition congruence|].
      exfalso. revert Hin. apply scrollRowToVisible_effects. }
  split; [|exact Hboth].
  intros Hsel r s. split; intros Hin;
    [destruct (Hboth r s (or_introl Hin)) as (_ & _ & Hne)
    |destruct (Hboth r s (or_intror Hin)) as (_ & _ & Hne)]; auto.
Qed.

(** Row 1 is selected: pressing it calls nothing, pressing row 3 reports
    row 3. *)
Lemma selection_changed_only_for_new_selectable_row_witness :
  (forall r s,
     ~ In (CallOnSelectionChanged r s)
         (effects (onRowMouseDown fiveRowsWithoutTwo 1 sampleWorld))
     /\ ~ In (CallOnSelectionChanged r s)
           (effects (onRowMouseOver fiveRowsWithoutTwo 1 sampleWorld)))
  /\ (3 = 3 /\ canSelectRow fiveRowsWithoutTwo 3 = true
      /\ 3 <> Props.selectedRow fiveRowsWithoutTwo).
Proof.
  split.
  - exact (proj1 (selection_changed_only_for_new_selectable_row
                    fiveRowsWithoutTwo 1 sampleWorld) eq_refl).
  - apply (proj2 (selection_changed_only_for_new_selectable_row
                    fiveRowsWithoutTwo 3 sampleWorld) 3 mouseclick).
    left. simpl. right. left. reflexivity.
Defined.

(** A hover selects too when [selectOnHover] is set. *)
Example onRowMouseOver_selects :
  effects (onRowMouseOver (listProps 5 1 None (Some true) None) 3 sampleWorld)
  = [CallOnSelectionChanged 3 hover; ReactForceUpdate; GridForceUpdate].
Proof. reflexivity. Qed.

(** ** Re-rendering of the grid *)

(** C4.  In [componentDidUpdate], when no focus row is pending (or its
    element is not there yet), the grid is mounted, and [rowCount], [width]
    and [height] did not change, the grid's [forceUpdate] is called exactly
    when [selectedRow] changed or [invalidationProps] is not shallow-equal to
    its previous value; when neither changed the method does nothing. *)
Theorem componentDidUpdate_forces_grid_iff_changed {A : Type}
    (shallowEquals : A -> A -> bool)
    (props prevProps : Props.IListProps A) (prevState : IListState)
    (w : World) :
  focusRow (inst w) < 0 \/ focusItem (inst w) = None ->
  grid (inst w) <> None ->
  Props.rowCount props = Props.rowCount prevProps ->
  width (state (inst w)) = width prevState ->
  height (state (inst w)) = height prevState ->
  (In GridForceUpdate
      (effects (componentDidUpdate shallowEquals props prevProps prevState w))
   <-> Props.selectedRow prevProps <> Props.selectedRow props
       \/ shallowEquals (Props.invalidationProps prevProps)
                        (Props.invalidationProps props) = false)
  /\ (Props.selectedRow prevProps = Props.selectedRow props ->
      shallowEquals (Props.invalidationProps prevProps)
                    (Props.invalidationProps props) = true ->
      componentDidUpdate shallowEquals props prevProps prevState w
      = {| value := tt; after := w; effects := [] |}).
Proof.
  intros Hfocus Hgrid Hcount Hwidth Hheight.
  unfold componentDidUpdate. run_method.
  assert (Helse :
    match (focusRow (inst w) >=? 0), focusItem (inst w) with
    | true, Some _ => False
    | _, _ => True
    end).
  { destruct (Z.geb_spec (focusRow (inst w)) 0), (focusItem (inst w));
      auto; destruct Hfocus; [lia|discriminate]. }
  destruct (grid (inst w)) as [g|]; [clear Hgrid|congruence].
  rewrite Hcount, Hwidth, Hheight, Z.eqb_refl, !option_Z_eqb_refl.
  cbn [is_some negb orb].
  destruct (Z.eqb_spec (Props.selectedRow prevProps) (Props.selectedRow props))
    as [Hsel|Hsel];
    destruct (shallowEquals (Props.invalidationProps prevProps)
                            (Props.invalidationProps props));
    destruct (focusRow (inst w) >=? 0), (focusItem (inst w));
    try contradiction; cbn; (split; [|intros; congruence || reflexivity]);
    split; intros; auto; intuition congruence.
Qed.

(** The owner moved the selection from row 0 to row 1. *)
Lemma componentDidUpdate_forces_grid_iff_changed_witness :
  In GridForceUpdate
     (effects (componentDidUpdate Z.eqb (sampleProps 1) (sampleProps 0)
                 (state (inst sampleWorld)) sampleWorld)).
Proof.
  apply (proj1 (componentDidUpdate_forces_grid_iff_changed Z.eqb
                  (sampleProps 1) (sampleProps 0) (state (inst sampleWorld))
                  sampleWorld
                  (or_introl eq_refl)
                  ltac:(discriminate) eq_refl eq_refl eq_refl)).
  left. simpl. lia.
Defined.

(** ** Focus *)

(** C8.  Before the list is mounted (no grid behind [this.grid]) and with a
    [selectedRow] outside [0, rowCount), [focus()] does nothing: it returns,
    the instance is as it was and nothing was called. *)
Theorem focus_before_mount_noop {A : Type} (props : Props.IListProps A)
    (w : World) :
  grid (inst w) = None ->
  ~ (0 <= Props.selectedRow props < Props.rowCount props) ->
  focus props w = {| value := tt; after := w; effects := [] |}.
Proof.
  intros Hgrid Hsel. unfold focus.
  destruct (Z.geb_spec (Props.selectedRow props) 0),
           (Z.ltb_spec (Props.selectedRow props) (Props.rowCount props));
    cbn [andb]; try lia; run_method; rewrite Hgrid; reflexivity.
Qed.

Lemma focus_before_mount_noop_witness :
  focus (sampleProps (-1)) unmountedWorld
  = {| value := tt; after := unmountedWorld; effects := [] |}.
Proof.
  apply focus_before_mount_noop; [reflexivity|simpl; lia].
Defined.

(** A general lemma on keyboard navigation: unless [focusOnHover] is
    [false], the row found becomes the focus row and the row to scroll to. *)
Lemma moveSelection_records_focusRow {A : Type} (props : Props.IListProps A)
    (direction : Direction) (newRow : Z) (w : World) :
  nextSelectableRow props direction (Props.selectedRow props) = Some newRow ->
  Props.focusOnHover props <> Some false ->
  focusRow (inst (after (moveSelection props direction w))) = newRow
  /\ scrollToRow (inst (after (moveSelection props direction w))) = newRow.
Proof.
  intros Hnext Hfocus. unfold moveSelection. rewrite Hnext.
  unfold scrollRowToVisible, forceUpdate. run_method.
  destruct (Props.onSelectionChanged props);
    destruct (Props.focusOnHover props) as [[|]|]; try congruence;
    cbn; destruct (is_some (grid (inst w))); cbn; split; reflexivity.
Qed.

(** With a focus row pending and its element attached, the update moves DOM
    focus to that element and clears the focus row. *)
Lemma componentDidUpdate_moves_focus {A : Type} (shallowEquals : A -> A -> bool)
    (props prevProps : Props.IListProps A) (prevState : IListState)
    (w : World) (item : HTMLElement) :
  0 <= focusRow (inst w) ->
  focusItem (inst w) = Some item ->
  let updated := componentDidUpdate shallowEquals props prevProps prevState w in
  In (FocusElement item) (effects updated)
  /\ focusRow (inst (after updated)) = -1.
Proof.
  intros Hrow Hitem. unfold componentDidUpdate, forceUpdate. run_method.
  rewrite Hitem.
  destruct (Z.geb_spec (focusRow (inst w)) 0); [|lia].
  cbn. destruct (is_some (grid (inst w))); cbn; auto.
Qed.

(** C5, at the failing input: three rows, row 0 selected, [focusOnHover]
    false and [selectOnHover] not set.  ArrowDown finds row 1 and reports it,
    but no focus row is recorded, and the following update, whatever element
    row 1 has, moves no focus: it only re-renders the grid. *)
Theorem keyboard_focus_lost_when_focusOnHover_false :
  let pressed := handleKeyDown (keyboardOnlyProps 0) arrowDown sampleWorld in
  nextSelectableRow (keyboardOnlyProps 0) down 0 = Some 1
  /\ effects pressed
     = [CallOnSelectionChanged 1 keyboard; ReactForceUpdate; GridForceUpdate;
        PreventDefault]
  /\ focusRow (inst (after pressed)) = -1
  /\ forall rowElement : option HTMLElement,
       let rendered := after (onFocusedItemRef rowElement (after pressed)) in
       effects (componentDidUpdate Z.eqb (keyboardOnlyProps 1)
                  (keyboardOnlyProps 0) (state (inst rendered)) rendered)
       = [GridForceUpdate].
Proof.
  cbv zeta.
  split; [reflexivity|]. split; [reflexivity|]. split; [reflexivity|].
  intros [element|]; reflexivity.
Qed.

(** The same key on the same list with [focusOnHover] left undefined: row 1
    becomes the focus row and the following update focuses its element. *)
Example keyboard_focus_moves_by_default :
  let pressed := handleKeyDown (sampleProps 0) arrowDown sampleWorld in
  focusRow (inst (after pressed)) = 1
  /\ forall rowElement : HTMLElement,
       let rendered :=
         after (onFocusedItemRef (Some rowElement) (after pressed)) in
       effects (componentDidUpdate Z.eqb (sampleProps 1) (sampleProps 0)
                  (state (inst rendered)) rendered)
       = [FocusElement rowElement; ReactForceUpdate; GridForceUpdate].
Proof. cbv zeta. split; [reflexivity|]. intros e. reflexivity. Qed.

(** ** Teardown *)

(** *** Methods that leave the timers and the id token alone *)

Lemma quiet_ret {X : Type} (x : X) : quiet (ret x).
Proof. intros w. repeat split. Qed.

Lemma quiet_emit (e : Effect) : quiet (emit e).
Proof. intros w. repeat split. Qed.

Lemma quiet_this : quiet this.
Proof. intros w. repeat split. Qed.

Lemma quiet_bind {X Y : Type} (m : M X) (k : X -> M Y) :
  quiet m -> (forall x, quiet (k x)) -> quiet (bind m k).
Proof.
  intros Hm Hk w. unfold bind; cbn [after].
  destruct (Hm w) as (H1 & H2 & H3).
  destruct (Hk (value (m w)) (after (m w))) as (K1 & K2 & K3).
  repeat split; congruence.
Qed.

Lemma quiet_when (c : bool) (m : M unit) : quiet m -> quiet (when c m).
Proof. intros Hm. destruct c; [exact Hm|apply quiet_ret]. Qed.

Lemma quiet_update (f : Instance -> Instance) :
  (forall i, updateSizeTimeoutId (f i) = updateSizeTimeoutId i
             /\ rowIdPrefix (state (f i)) = rowIdPrefix (state i)) ->
  quiet (update f).
Proof. intros Hf w. destruct (Hf (inst w)). repeat split; assumption. Qed.

Ltac quiet_step :=
  first
    [ apply quiet_ret | apply quiet_emit | apply quiet_this
    | apply quiet_bind; [|intros ?]
    | apply quiet_when
    | apply quiet_update; intros ?; split; reflexivity
    | match goal with
      | |- quiet (match ?x with _ => _ end) => destruct x
      | |- quiet (if ?x then _ else _) => destruct x
      end ].

Ltac quiet_tac := repeat quiet_step.

Lemma quiet_forceUpdate : quiet forceUpdate.
Proof. unfold forceUpdate. quiet_tac. Qed.

Lemma quiet_scrollRowToVisible {A : Type} (props : Props.IListProps A) row :
  quiet (scrollRowToVisible props row).
Proof. unfold scrollRowToVisible. quiet_tac; apply quiet_forceUpdate. Qed.

Lemma quiet_moveSelection {A : Type} (props : Props.IListProps A) direction :
  quiet (moveSelection props direction).
Proof. unfold moveSelection. quiet_tac; apply quiet_scrollRowToVisible. Qed.

Lemma quiet_handleKeyDown {A : Type} (props : Props.IListProps A) event :
  quiet (handleKeyDown props event).
Proof. unfold handleKeyDown. quiet_tac; apply quiet_moveSelection. Qed.

Lemma quiet_onRowMouseOver {A : Type} (props : Props.IListProps A) row :
  quiet (onRowMouseOver props row).
Proof. unfold onRowMouseOver. quiet_tac; apply quiet_scrollRowToVisible. Qed.

Lemma quiet_onRowMouseDown {A : Type} (props : Props.IListProps A) row :
  quiet (onRowMouseDown props row).
Proof. unfold onRowMouseDown. quiet_tac. Qed.

Lemma quiet_focus {A : Type} (props : Props.IListProps A) :
  quiet (focus props).
Proof. unfold focus. quiet_tac; apply quiet_scrollRowToVisible. Qed.

Lemma quiet_componentDidUpdate {A : Type} (shallowEquals : A -> A -> bool)
    (props prevProps : Props.IListProps A) (prevState : IListState) :
  quiet (componentDidUpdate shallowEquals props prevProps prevState).
Proof. unfold componentDidUpdate. quiet_tac; apply quiet_forceUpdate. Qed.

Lemma quiet_onScroll {A : Type} (WIN32 : bool) (props : Props.IListProps A)
    (scrollTop clientHeight : Z) :
  quiet (onScroll WIN32 props scrollTop clientHeight).
Proof. unfold onScroll. quiet_tac. Qed.

Lemma quiet_onFakeScroll (scrollTop : Z) : quiet (onFakeScroll scrollTop).
Proof. unfold onFakeScroll. quiet_tac. Qed.

Lemma quiet_onRef (element : option HTMLElement) : quiet (onRef element).
Proof.
  unfold onRef, disconnect, observe, setState_size. quiet_tac;
    apply quiet_update; intros i; destruct (resizeObserver i);
    split; reflexivity.
Qed.

(** *** The resources stay tracked through the life of the component *)

Lemma tracked_same (token : string) (w w' : World) :
  sameResources w w' -> tracked token w -> tracked token w'.
Proof.
  intros (H1 & H2 & H3) (T1 & T2). split; [congruence|].
  rewrite H2, H1. exact T2.
Qed.

(** A resize notification replaces the queued callback, if any, by a new
    one. *)
Lemma tracked_resizeObserverCallback (token : string)
    (entries : list HTMLElement) :
  forall w, tracked token w ->
    tracked token (after (resizeObserverCallback entries w)).
Proof.
  induction entries as [|target rest IH]; intros w Hw; [exact Hw|].
  cbn [resizeObserverCallback]. unfold bind at 1. cbn [after this value].
  unfold bind at 1. cbn [after].
  apply IH. destruct Hw as (T1 & T2).
  destruct (option_Z_eqb (Some target) (listElement (inst w)));
    [|split; assumption].
  unfold when, setImmediate, clearImmediate, tracked.
  destruct (updateSizeTimeoutId (inst w)) as [id|]; run_method; cbn.
  - destruct T2 as (t & ->). cbn. rewrite Z.eqb_refl. cbn. eauto.
  - rewrite T2. cbn. eauto.
Qed.

(** A due immediate leaves the queue and [onResized] forgets its id. *)
Lemma tracked_runImmediate (token : string) (id offsetWidth offsetHeight : Z) :
  forall w, tracked token w ->
    tracked token (after (runImmediate id offsetWidth offsetHeight w)).
Proof.
  intros w (T1 & T2). unfold runImmediate.
  destruct (existsb (fun p => fst p =? id) (immediates w)) eqn:Hex;
    [|split; assumption].
  unfold onResized, clearImmediate, setState_size. run_method.
  assert (Hq : filter (fun p : Z * HTMLElement => negb (fst p =? id))
                 (immediates w) = []).
  { destruct (updateSizeTimeoutId (inst w)) as [id0|].
    - destruct T2 as (t & Ht). rewrite Ht in *. cbn in *.
      rewrite orb_false_r in Hex. rewrite Hex. reflexivity.
    - rewrite T2. reflexivity. }
  match goal with
  | |- context [if ?c then _ else _] => destruct c
  end; cbn; (split; [assumption|exact Hq]).
Qed.

Lemma tracked_deliver {A : Type} (WIN32 : bool) (shallowEquals : A -> A -> bool)
    (token : string) (props : Props.IListProps A) (s : Stimulus A) :
  forall w, tracked token w ->
    tracked token (after (deliver WIN32 shallowEquals props s w)).
Proof.
  intros w Hw. destruct s; cbn [deliver].
  - eapply tracked_same; [apply quiet_handleKeyDown|exact Hw].
  - eapply tracked_same; [|exact Hw]. unfold onRowKeyDown. quiet_tac.
  - eapply tracked_same; [|exact Hw]. unfold onRowClick. quiet_tac.
  - eapply tracked_same; [apply quiet_onRowMouseOver|exact Hw].
  - eapply tracked_same; [apply quiet_onRowMouseDown|exact Hw].
  - eapply tracked_same; [apply quiet_componentDidUpdate|exact Hw].
  - eapply tracked_same; [apply quiet_onRef|exact Hw].
  - eapply tracked_same; [|exact Hw]. unfold onGridRef. quiet_tac.
  - eapply tracked_same; [|exact Hw]. unfold onFakeScrollRef. quiet_tac.
  - eapply tracked_same; [|exact Hw]. unfold onFocusedItemRef. quiet_tac.
  - run_method. destruct (is_some (resizeObserver (inst w))); [|exact Hw].
    apply tracked_resizeObserverCallback. exact Hw.
  - apply tracked_runImmediate. exact Hw.
  - eapply tracked_same; [apply quiet_onScroll|exact Hw].
  - eapply tracked_same; [apply quiet_onFakeScroll|exact Hw].
  - eapply tracked_same; [|exact Hw].
    unfold renderContents, renderGrid. quiet_tac.
  - eapply tracked_same; [apply quiet_focus|exact Hw].
  - eapply tracked_same; [apply quiet_forceUpdate|exact Hw].
Qed.

Lemma tracked_run {A : Type} (WIN32 : bool) (shallowEquals : A -> A -> bool)
    (token : string) (history : list (Props.IListProps A * Stimulus A)) :
  forall w, tracked token w ->
    tracked token (after (run WIN32 shallowEquals history w)).
Proof.
  induction history as [|[props s] rest IH]; intros w Hw; [exact Hw|].
  cbn [run]. unfold bind. cbn [after]. apply IH, tracked_deliver, Hw.
Qed.

Lemma tracked_mounted (createUniqueId : string -> string)
    (hasResizeObserver : bool) (firstImmediate : Z) :
  tracked (createUniqueId "ListRow"%string)
          (mounted createUniqueId hasResizeObserver firstImmediate).
Proof. split; reflexivity. Qed.

(** C7.  Whatever happened to the component since it was mounted,
    [componentWillUnmount] releases what the instance holds: no deferred
    resize callback stays queued and its id is forgotten, the resize observer
    watches nothing, and the id token that [componentWillMount] took from the
    id pool (a non-empty string) is given back to it, once. *)
Theorem componentWillUnmount_releases_resources {A : Type} (WIN32 : bool)
    (shallowEquals : A -> A -> bool) (createUniqueId : string -> string)
    (hasResizeObserver : bool) (firstImmediate : Z)
    (history : list (Props.IListProps A * Stimulus A)) :
  createUniqueId "ListRow"%string <> ""%string ->
  let w := after (run WIN32 shallowEquals history
                    (mounted createUniqueId hasResizeObserver firstImmediate)) in
  let unmounted := componentWillUnmount w in
  immediates (after unmounted) = []
  /\ updateSizeTimeoutId (inst (after unmounted)) = None
  /\ observedTargets (inst (after unmounted)) = []
  /\ effects unmounted = [ReleaseUniqueId (createUniqueId "ListRow"%string)].
Proof.
  intros Htoken w unmounted.
  assert (Hw : tracked (createUniqueId "ListRow"%string) w)
    by apply tracked_run, tracked_mounted.
  clearbody w. destruct Hw as (T1 & T2). subst unmounted.
  unfold componentWillUnmount, clearImmediate, disconnect, observedTargets.
  assert (Hne : negb (createUniqueId "ListRow" =? "")%string = true).
  { destruct (String.eqb_spec (createUniqueId "ListRow"%string) ""%string);
      [contradiction|reflexivity]. }
  destruct (updateSizeTimeoutId (inst w)) as [id|] eqn:Hid;
    destruct (resizeObserver (inst w)) as [targets|] eqn:Hro;
    run_method;
    repeat (progress (rewrite ?Hid, ?Hro, ?T1, ?Hne; cbn));
    try (destruct T2 as (t & ->); cbn; rewrite Z.eqb_refl; cbn);
    try rewrite T2; auto.
Qed.

(** The list is unmounted while a resize callback is queued and the container
    is observed. *)
Example resizedHistory_pending :
  let w := after (run true Z.eqb resizedHistory
                    (mounted sampleCreateUniqueId true 0)) in
  immediates w = [(2, 1)]
  /\ updateSizeTimeoutId (inst w) = Some 2
  /\ observedTargets (inst w) = [1]
  /\ width (state (inst w)) = Some 640.
Proof. repeat split. Qed.

Lemma componentWillUnmount_releases_resources_witness :
  let w := after (run true Z.eqb resizedHistory
                    (mounted sampleCreateUniqueId true 0)) in
  let unmounted := componentWillUnmount w in
  immediates (after unmounted) = []
  /\ updateSizeTimeoutId (inst (after unmounted)) = None
  /\ observedTargets (inst (after unmounted)) = []
  /\ effects unmounted = [ReleaseUniqueId "__ListRow"].
Proof.
  apply (componentWillUnmount_releases_resources true Z.eqb
           sampleCreateUniqueId true 0 resizedHistory).
  discriminate.
Defined.

(** ** Scroll mirroring *)

Lemma onScroll_run {A : Type} (WIN32 : bool) (props : Props.IListProps A)
    (scrollTop clientHeight : Z) (w : World) :
  scrollWrites (effects (onScroll WIN32 props scrollTop clientHeight w))
  = onScroll_writes WIN32 (inst w) scrollTop
  /\ inst (after (onScroll WIN32 props scrollTop clientHeight w))
     = onScroll_inst WIN32 (inst w).
Proof.
  unfold onScroll, onScroll_writes, onScroll_inst. run_method.
  destruct (Props.onScroll props), WIN32; cbn;
    try (destruct (fakeScroll (inst w))); cbn;
    try (destruct (lastScroll (inst w)) as [[|]|]); cbn; split; reflexivity.
Qed.

Lemma onFakeScroll_run (scrollTop : Z) (w : World) :
  scrollWrites (effects (onFakeScroll scrollTop w))
  = onFakeScroll_writes (inst w) scrollTop
  /\ inst (after (onFakeScroll scrollTop w)) = onFakeScroll_inst (inst w).
Proof.
  unfold onFakeScroll, onFakeScroll_writes, onFakeScroll_inst. run_method.
  destruct (lastScroll (inst w)) as [[|]|]; cbn;
    try (destruct (grid (inst w)) as [g|]; cbn);
    try (destruct (findDOMNode g)); cbn; split; reflexivity.
Qed.

(** The echo of a scroll the grid started: [onFakeScroll] clears the flag and
    calls nothing. *)
Lemma onFakeScroll_echo (scrollTop : Z) (w : World) :
  lastScroll (inst w) = Some grid_scroller ->
  effects (onFakeScroll scrollTop w) = []
  /\ lastScroll (inst (after (onFakeScroll scrollTop w))) = None.
Proof.
  intros H. unfold onFakeScroll. run_method. rewrite H. split; reflexivity.
Qed.

(** The echo of a scroll the fake scroll bar started: [onScroll] clears the
    flag and assigns no scroll position. *)
Lemma onScroll_echo {A : Type} (props : Props.IListProps A)
    (scrollTop clientHeight : Z) (w : World) :
  lastScroll (inst w) = Some fake_scroller ->
  fakeScroll (inst w) <> None ->
  let handled := onScroll true props scrollTop clientHeight w in
  scrollWrites (effects handled) = []
  /\ lastScroll (inst (after handled)) = None.
Proof.
  intros Hlast Hfake. cbv zeta.
  destruct (onScroll_run true props scrollTop clientHeight w) as (-> & ->).
  unfold onScroll_writes, onScroll_inst. rewrite Hlast.
  destruct (fakeScroll (inst w)); [split; reflexivity|congruence].
Qed.

Lemma scrollWrites_app (l1 l2 : list Effect) :
  scrollWrites (l1 ++ l2) = scrollWrites l1 ++ scrollWrites l2.
Proof.
  induction l1 as [|e l1 IH]; [reflexivity|].
  destruct e; cbn; rewrite ?IH; reflexivity.
Qed.

Lemma settle_writes (i : Instance) (effs : list Effect) :
  forall dom, settle i dom effs = settleWrites i dom (scrollWrites effs).
Proof.
  induction effs as [|e effs IH]; intros dom; [reflexivity|].
  destruct e; cbn [settle scrollWrites settleWrites]; rewrite ?IH; reflexivity.
Qed.

Lemma settleWrites_nil (i : Instance) (dom : Dom) :
  settleWrites i dom [] = (dom, []).
Proof. reflexivity. Qed.

Lemma settleWrites_one (i : Instance) (dom : Dom) (element : HTMLElement)
    (v : Z) :
  settleWrites i dom [(element, v)] =
  (fst (assignScrollTop dom element v),
   match snd (assignScrollTop dom element v) with
   | Some top =>
       match scrollListener i (fst (assignScrollTop dom element v))
               element top with
       | Some e => [e]
       | None => []
       end
   | None => []
   end).
Proof. reflexivity. Qed.

Section CascadeFacts.
Context {A : Type} (WIN32 : bool) (props : Props.IListProps A).

Lemma pump_idle (fuel : nat) (c : Cascade) :
  queue c = [] -> pump WIN32 props fuel c = c.
Proof.
  intros H. destruct fuel; cbn [pump]; [reflexivity|].
  rewrite H. reflexivity.
Qed.

(** One handled event. *)
Lemma pump_step (fuel : nat) (c : Cascade) (e : ScrollEvent)
    (rest : list ScrollEvent) :
  queue c = e :: rest ->
  pump WIN32 props (S fuel) c =
  pump WIN32 props fuel
    (let o := handleScroll WIN32 props e (world c) in
     let settled :=
       settleWrites (inst (after o)) (dom c) (scrollWrites (effects o)) in
     {| dom := fst settled; queue := rest ++ snd settled;
        world := after o; trace := trace c ++ effects o |}).
Proof.
  intros H. cbn [pump]. rewrite H. cbv zeta. rewrite settle_writes.
  reflexivity.
Qed.

(** When the handler of an event causes at most one event, and the handler
    of that one assigns no scroll position, two steps empty the queue. *)
Lemma pump_two (fuel : nat) (c : Cascade) (e : ScrollEvent) :
  queue c = [e] ->
  let o1 := handleScroll WIN32 props e (world c) in
  let s1 :=
    settleWrites (inst (after o1)) (dom c) (scrollWrites (effects o1)) in
  (List.length (snd s1) <= 1)%nat ->
  (forall e2, In e2 (snd s1) ->
     scrollWrites (effects (handleScroll WIN32 props e2 (after o1))) = []) ->
  let c' := pump WIN32 props (S (S fuel)) c in
  queue c' = []
  /\ scrollWrites (trace c')
     = scrollWrites (trace c) ++ scrollWrites (effects o1).
Proof.
  intros Hq o1 s1 Hlen Hecho c'. subst c'.
  rewrite (pump_step _ _ e []) by exact Hq. cbv zeta. fold o1. fold s1.
  cbn [app].
  destruct (snd s1) as [|e2 [|e3 rest]] eqn:Hs1; cbn in Hlen; try lia.
  - rewrite pump_idle by reflexivity. cbn [queue trace].
    rewrite scrollWrites_app. split; reflexivity.
  - rewrite (pump_step _ _ e2 []) by reflexivity. cbv zeta.
    cbn [world dom trace app].
    rewrite (Hecho e2 (or_introl eq_refl)), settleWrites_nil.
    rewrite pump_idle by reflexivity. cbn [queue trace fst snd].
    rewrite !scrollWrites_app, (Hecho e2 (or_introl eq_refl)), app_nil_r.
    split; reflexivity.
Qed.
End CascadeFacts.

(** C6.  The mirroring does not feed back.  A scroll event that arrives as
    the echo of the other side's assignment (the [lastScroll] flag names the
    other side) clears the flag and assigns no scroll position; so when a
    single user scroll on either side is handled, with all the scroll events
    it causes, the event queue empties within two handler runs and at most
    one scroll position was assigned, on the opposite side. *)
Theorem scroll_mirroring_no_feedback {A : Type} (WIN32 : bool)
    (props : Props.IListProps A) (w : World) (d : Dom) (e : ScrollEvent)
    (fuel : nat) :
  (lastScroll (inst w) = Some grid_scroller ->
   forall scrollTop,
     effects (onFakeScroll scrollTop w) = []
     /\ lastScroll (inst (after (onFakeScroll scrollTop w))) = None)
  /\ (lastScroll (inst w) = Some fake_scroller ->
      WIN32 = true -> fakeScroll (inst w) <> None ->
      forall scrollTop clientHeight,
        let handled := onScroll WIN32 props scrollTop clientHeight w in
        scrollWrites (effects handled) = []
        /\ lastScroll (inst (after handled)) = None)
  /\ (distinctScrollers (inst w) ->
      (2 <= fuel)%nat ->
      let c := pump WIN32 props fuel
                 {| dom := d; queue := [e]; world := w; trace := [] |} in
      queue c = []
      /\ (List.length (scrollWrites (trace c)) <= 1)%nat
      /\ forall element v, In (element, v) (scrollWrites (trace c)) ->
           match e with
           | GridScroll _ _ => fakeScroll (inst w) = Some element
           | FakeScroll _ =>
               exists g, grid (inst w) = Some g
                         /\ findDOMNode g = Some element
           end).
Proof.
  split; [intros Hlast scrollTop; apply onFakeScroll_echo, Hlast|].
  split; [intros Hlast -> Hfake scrollTop clientHeight;
          apply onScroll_echo; assumption|].
  intros Hdistinct Hfuel.
  destruct fuel as [|[|fuel]]; try lia. clear Hfuel.
  cbv zeta.
  destruct (pump_two WIN32 props fuel
              {| dom := d; queue := [e]; world := w; trace := [] |} e eq_refl)
    as (Hqueue & Htrace); cbn [world dom trace]; cbv zeta.
  - (* the first handler causes at most one event *)
    destruct e as [top ch|top]; cbn [handleScroll].
    + destruct (onScroll_run WIN32 props top ch w) as (-> & ->).
      unfold onScroll_writes.
      destruct (if WIN32 then fakeScroll (inst w) else None) as [fake|];
        [destruct (lastScroll (inst w)) as [[|]|]|];
        rewrite ?settleWrites_one, ?settleWrites_nil; cbn [snd List.length];
        try lia;
        repeat match goal with
               | |- context [match ?x with _ => _ end] => destruct x
               end; cbn; lia.
    + destruct (onFakeScroll_run top w) as (-> & ->).
      unfold onFakeScroll_writes.
      destruct (lastScroll (inst w)) as [[|]|];
        try (destruct (grid (inst w)) as [g|]; [destruct (findDOMNode g)|]);
        rewrite ?settleWrites_one, ?settleWrites_nil; cbn [snd List.length];
        try lia;
        repeat match goal with
               | |- context [match ?x with _ => _ end] => destruct x
               end; cbn; lia.
  - (* and the handler of that event assigns nothing *)
    intros e2. destruct e as [top ch|top]; cbn [handleScroll].
    + destruct (onScroll_run WIN32 props top ch w) as (-> & Hi).
      unfold onScroll_writes, onScroll_inst in *.
      destruct (if WIN32 then fakeScroll (inst w) else None) as [fake|]
        eqn:Hfake; [|intros []].
      assert (Hf : fakeScroll (inst w) = Some fake)
        by (destruct WIN32; congruence).
      destruct (lastScroll (inst w)) as [[|]|] eqn:Hlast;
        try (intros []); rewrite settleWrites_one; cbn [snd];
        (destruct (snd (assignScrollTop d fake top)) as [moved|];
         [|intros []]);
        unfold scrollListener; rewrite Hi; cbn [fakeScroll set_lastScroll];
        rewrite Hf, option_Z_eqb_refl; intros [<-|[]]; cbn [handleScroll];
        destruct (onFakeScroll_run moved
                    (after (onScroll WIN32 props top ch w))) as (-> & _);
        unfold onFakeScroll_writes; rewrite Hi; reflexivity.
    + destruct (onFakeScroll_run top w) as (-> & Hi).
      unfold onFakeScroll_writes, onFakeScroll_inst in *.
      assert (Hswallow : forall t c0,
                lastScroll (inst w) <> Some grid_scroller ->
                scrollWrites (effects (onScroll WIN32 props t c0
                                         (after (onFakeScroll top w)))) = []).
      { intros t c0 Hne.
        destruct (onScroll_run WIN32 props t c0 (after (onFakeScroll top w)))
          as (-> & _).
        unfold onScroll_writes. rewrite Hi.
        destruct (lastScroll (inst w)) as [[|]|]; try congruence;
          cbn [fakeScroll lastScroll set_lastScroll];
          destruct (if WIN32 then fakeScroll (inst w) else None);
          reflexivity. }
      destruct (lastScroll (inst w)) as [[|]|] eqn:Hlast; try (intros []);
        (destruct (grid (inst w)) as [g|] eqn:Hg; [|intros []]);
        (destruct (findDOMNode g) as [element|] eqn:Hnode; [|intros []]);
        rewrite settleWrites_one; cbn [snd];
        (destruct (snd (assignScrollTop d element top)) as [moved|];
         [|intros []]);
        unfold scrollListener; rewrite Hi;
        cbn [fakeScroll grid set_lastScroll];
        rewrite Hg, Hnode, option_Z_eqb_refl;
        (destruct (option_Z_eqb (fakeScroll (inst w)) (Some element))
           eqn:Hsame;
         [apply option_Z_eqb_eq in Hsame;
          destruct (Hdistinct g element Hg Hnode Hsame)|]);
        intros [<-|[]]; cbn [handleScroll]; apply Hswallow; congruence.
  - (* so the assignments of the cascade are those of the first handler *)
    split; [exact Hqueue|]. rewrite Htrace. cbn [trace app world].
    destruct e as [top ch|top]; cbn [handleScroll].
    + destruct (onScroll_run WIN32 props top ch w) as (-> & _).
      unfold onScroll_writes.
      destruct (if WIN32 then fakeScroll (inst w) else None) as [fake|]
        eqn:Hfake; [|cbn; split; [lia|intros ? ? []]].
      assert (Hf : fakeScroll (inst w) = Some fake)
        by (destruct WIN32; congruence).
      destruct (lastScroll (inst w)) as [[|]|]; cbn;
        (split; [lia|]); intros ? ?; intuition congruence.
    + destruct (onFakeScroll_run top w) as (-> & _).
      unfold onFakeScroll_writes.
      destruct (lastScroll (inst w)) as [[|]|];
        try (destruct (grid (inst w)) as [g|];
             [destruct (findDOMNode g) eqn:Hnode|]);
        cbn; (split; [lia|]); intros ? ? Hin; try contradiction;
        destruct Hin as [[= <- <-]|[]]; eauto.
Qed.

(** The user scrolls the grid of the sample list to 40: the fake scroll bar
    is moved once, its echo is swallowed, and the flag is clear again. *)
Example scroll_cascade_from_grid :
  let c := pump true (sampleProps 0) 5
             {| dom := sampleDom; queue := [GridScroll 40 300];
                world := sampleWorld; trace := [] |} in
  queue c = []
  /\ trace c = [CallOnScroll 40 300; SetScrollTop 3 40]
  /\ lastScroll (inst (world c)) = None
  /\ boxScrollTop (dom c 3) = 40.
Proof. repeat split. Qed.

(** The same from the fake scroll bar: the grid's node is moved once. *)
Example scroll_cascade_from_fake :
  let c := pump true (sampleProps 0) 5
             {| dom := sampleDom; queue := [FakeScroll 40];
                world := sampleWorld; trace := [] |} in
  queue c = []
  /\ trace c = [SetScrollTop 2 40; CallOnScroll 40 300]
  /\ lastScroll (inst (world c)) = None.
Proof. repeat split. Qed.

Lemma scroll_mirroring_no_feedback_witness :
  let c := pump true (sampleProps 0) 2
             {| dom := sampleDom; queue := [GridScroll 40 300];
                world := sampleWorld; trace := [] |} in
  queue c = []
  /\ (List.length (scrollWrites (trace c)) <= 1)%nat
  /\ forall element v, In (element, v) (scrollWrites (trace c)) ->
       fakeScroll (inst sampleWorld) = Some element.
Proof.
  apply (proj2 (proj2 (scroll_mirroring_no_feedback true (sampleProps 0)
                         sampleWorld sampleDom (GridScroll 40 300) 2))).
  - intros g element Hg Hnode Hfake.
    vm_compute in Hg. injection Hg as <-.
    vm_compute in Hnode. injection Hnode as <-.
    vm_compute in Hfake. discriminate.
  - apply le_n.
Defined.

(** * Further properties *)

(** ** The search, continued *)

Example string_of_number_samples :
  string_of_number 12 = "12"%string /\ string_of_number (-3) = "-3"%string
  /\ string_of_number 0 = "0"%string.
Proof. repeat split. Qed.

Section MoreSearchFacts.
Context {A : Type} (props : Props.IListProps A).

(** The search returns the row of the first iteration that accepts. *)
Lemma nextSelectableRow_loop_first direction baseRow rowDelta k :
  1 <= k < rowDelta ->
  canSelectRow props (rawStep props direction baseRow k) = true ->
  (forall j, 1 <= j < k ->
     canSelectRow props (rawStep props direction baseRow j) = false) ->
  snd (nextSelectableRow_loop props direction baseRow rowDelta 1)
  = Some (rawStep props direction baseRow k).
Proof.
  intros Hk Hsel Hbefore.
  destruct (snd (nextSelectableRow_loop props direction baseRow rowDelta 1))
    as [r|] eqn:Hres.
  - destruct (nextSelectableRow_loop_found props direction baseRow rowDelta
                _ 1 eq_refl r Hres) as (k' & Hk' & -> & Hsel' & Hbefore').
    destruct (Z.lt_trichotomy k' k) as [Hlt|[->|Hgt]]; [|reflexivity|].
    + rewrite Hbefore in Hsel' by lia. discriminate.
    + rewrite Hbefore' in Hsel by lia. discriminate.
  - rewrite (nextSelectableRow_loop_none props direction baseRow rowDelta
               _ 1 eq_refl) in Hres.
    rewrite Hres in Hsel by lia. discriminate.
Qed.

(** The rows looked at are rows of iterations. *)
Lemma nextSelectableRow_loop_probes direction baseRow rowDelta :
  forall m i, Z.to_nat (rowDelta - i) = m ->
    let run := nextSelectableRow_loop props direction baseRow rowDelta i in
    (List.length (fst run) <= m)%nat
    /\ (forall p, In p (fst run) ->
          exists j, i <= j < rowDelta /\ p = rawStep props direction baseRow j)
    /\ match snd run with
       | Some r =>
           exists rejected, fst run = rejected ++ [r]
             /\ Forall (fun p => canSelectRow props p = false) rejected
       | None => Forall (fun p => canSelectRow props p = false) (fst run)
       end.
Proof.
  induction m as [|m IH]; intros i Hm; cbv zeta;
    rewrite nextSelectableRow_loop_step;
    destruct (Z_lt_ge_dec i rowDelta) as [Hlt|Hge];
    try (cbn; repeat split; [lia|intros ? []|constructor]); [exfalso; lia|].
  destruct (canSelectRow props (rawStep props direction baseRow i)) eqn:Hsel.
  - cbn. repeat split; [lia| |].
    + intros p [<-|[]]. exists i. split; [lia|reflexivity].
    + exists []. split; [reflexivity|constructor].
  - destruct (IH (i + 1) ltac:(lia)) as (Hlen & Hin & Hshape).
    cbn [probe fst snd List.length]. repeat split; [lia| |].
    + intros p [<-|Hp]; [exists i; split; [lia|reflexivity]|].
      destruct (Hin p Hp) as (j & Hj & ->). exists j. split; [lia|reflexivity].
    + destruct (snd (nextSelectableRow_loop props direction baseRow rowDelta
                       (i + 1))) as [r|].
      * destruct Hshape as (rejected & -> & Hrej).
        exists (rawStep props direction baseRow i :: rejected).
        split; [reflexivity|constructor; assumption].
      * constructor; assumption.
Qed.
End MoreSearchFacts.

(** X1.  Going back undoes a move: when the search from a selectable row
    inside the list returns a row, the search from that row in the other
    direction returns the row it started from. *)
Theorem nextSelectableRow_round_trip {A : Type} (props : Props.IListProps A)
    (direction : Direction) (row r : Z) :
  0 <= row < Props.rowCount props ->
  canSelectRow props row = true ->
  nextSelectableRow props direction row = Some r ->
  nextSelectableRow props (opposite direction) r = Some row.
Proof.
  intros Hrow Hsel Hnext.
  unfold nextSelectableRow, nextSelectableRow_run in *.
  set (n := Props.rowCount props) in *.
  assert (E1 : (row <? 0) = false) by lia.
  assert (E2 : (row >=? n) = false) by lia.
  rewrite E1, E2 in Hnext. cbn [orb] in Hnext.
  replace (Z.min (Z.max row (-1)) n) with row in Hnext by lia.
  destruct (nextSelectableRow_loop_found props direction row n _ 1 eq_refl r
              Hnext) as (k & Hk & Hr & Hselr & Hbefore).
  assert (Hn : 0 < n) by lia.
  assert (Hrw : r = window n (row + offset direction k)).
  { rewrite Hr. apply rawStep_window; [exact Hn|].
    unfold offset; destruct direction; lia. }
  assert (Hrange : 0 <= r < n).
  { rewrite Hrw. unfold window, offset. destruct direction;
      repeat match goal with
             | |- context [?a <? ?b] => destruct (Z.ltb_spec a b)
             end; lia. }
  assert (E3 : (r <? 0) = false) by lia.
  assert (E4 : (r >=? n) = false) by lia.
  rewrite E3, E4. cbn [orb].
  replace (Z.min (Z.max r (-1)) n) with r by lia.
  assert (Hback : forall j, 1 <= j <= k ->
            rawStep props (opposite direction) r j
            = window n (row + offset direction (k - j))).
  { intros j Hj. rewrite rawStep_window; [|exact Hn|].
    - rewrite Hrw. unfold window, offset. destruct direction; cbn [opposite];
        repeat match goal with
               | |- context [?a <? ?b] => destruct (Z.ltb_spec a b)
               end; lia.
    - rewrite Hrw. unfold window, offset. destruct direction; cbn [opposite];
        repeat match goal with
               | |- context [?a <? ?b] => destruct (Z.ltb_spec a b)
               end; lia. }
  assert (Hhome : rawStep props (opposite direction) r k = row).
  { rewrite Hback by lia. rewrite Z.sub_diag.
    unfold window, offset. destruct direction;
      repeat match goal with
             | |- context [?a <? ?b] => destruct (Z.ltb_spec a b)
             end; lia. }
  transitivity (Some (rawStep props (opposite direction) r k));
    [|f_equal; exact Hhome].
  apply nextSelectableRow_loop_first; [lia|rewrite Hhome; exact Hsel|].
  intros j Hj. rewrite Hback by lia.
  assert (Hx := rawStep_window props direction row (k - j) Hn).
  fold n in Hx. rewrite <- Hx; [apply Hbefore; lia|].
  unfold offset; destruct direction; lia.
Qed.

Lemma nextSelectableRow_round_trip_witness :
  nextSelectableRow fiveRowsWithoutTwo (opposite down) 3 = Some 1.
Proof.
  apply (nextSelectableRow_round_trip fiveRowsWithoutTwo down 1 3);
    [simpl; lia|reflexivity|reflexivity].
Defined.

(** X2.  From a row inside a list of two rows or more, a selectable
    neighbour (the next row on the circle, so row 0 after the last row going
    down and the last row before row 0 going up) is what the search returns;
    in a list of one row the search returns null. *)
Theorem nextSelectableRow_neighbour {A : Type} (props : Props.IListProps A)
    (direction : Direction) (row : Z) :
  0 <= row < Props.rowCount props ->
  (2 <= Props.rowCount props ->
   canSelectRow props (circularStep props direction row 1) = true ->
   nextSelectableRow props direction row
   = Some (circularStep props direction row 1))
  /\ (Props.rowCount props = 1 ->
      nextSelectableRow props direction row = None).
Proof.
  intros Hrow. unfold nextSelectableRow, nextSelectableRow_run.
  set (n := Props.rowCount props) in *.
  assert (E1 : (row <? 0) = false) by lia.
  assert (E2 : (row >=? n) = false) by lia.
  rewrite E1, E2. cbn [orb].
  replace (Z.min (Z.max row (-1)) n) with row by lia.
  split.
  - intros Hn Hsel.
    assert (Hstep : rawStep props direction row 1
                    = circularStep props direction row 1).
    { rewrite rawStep_window, circularStep_window; auto; try lia;
        unfold offset; destruct direction; fold n; lia. }
    rewrite <- Hstep in *.
    apply nextSelectableRow_loop_first; [lia|exact Hsel|intros j Hj; lia].
  - intros Hn. rewrite Hn.
    apply (nextSelectableRow_loop_none props direction row 1 _ 1 eq_refl).
    intros j Hj. lia.
Qed.

Lemma nextSelectableRow_neighbour_witness :
  nextSelectableRow (sampleProps 2) down 2
  = Some (circularStep (sampleProps 2) down 2 1)
  /\ circularStep (sampleProps 2) down 2 1 = 0.
Proof.
  split; [|reflexivity].
  apply (proj1 (nextSelectableRow_neighbour (sampleProps 2) down 2
                  ltac:(simpl; lia)));
    [simpl; lia|reflexivity].
Defined.

(** X3.  The search asks [canSelectRow] about at most [rowCount] rows, and it
    stops at the first row accepted: every row looked at before the returned
    one was rejected, and when null is returned all of them were. *)
Theorem nextSelectableRow_probes_shape {A : Type} (props : Props.IListProps A)
    (direction : Direction) (row : Z) :
  (List.length (nextSelectableRow_probes props direction row)
   <= Z.to_nat (Props.rowCount props))%nat
  /\ match nextSelectableRow props direction row with
     | Some r =>
         exists rejected,
           nextSelectableRow_probes props direction row = rejected ++ [r]
           /\ Forall (fun p => canSelectRow props p = false) rejected
     | None =>
         Forall (fun p => canSelectRow props p = false)
                (nextSelectableRow_probes props direction row)
     end.
Proof.
  unfold nextSelectableRow, nextSelectableRow_probes, nextSelectableRow_run.
  set (n := Props.rowCount props).
  set (baseRow := Z.min (Z.max row (-1)) n).
  set (rowDelta := if (row <? 0) || (row >=? n) then n + 1 else n).
  destruct (nextSelectableRow_loop_probes props direction baseRow rowDelta
              _ 1 eq_refl) as (Hlen & _ & Hshape).
  split; [|exact Hshape].
  eapply Nat.le_trans; [exact Hlen|].
  unfold rowDelta. destruct ((row <? 0) || (row >=? n)); lia.
Qed.

(** X4.  Down from a row at or past [rowCount] the search covers the whole
    list, with row 0 last: a returned row is in [0, rowCount) and selectable,
    row 0 is returned only when no other row is selectable, and null is
    returned exactly when no row is selectable. *)
Theorem nextSelectableRow_down_from_beyond {A : Type}
    (props : Props.IListProps A) (row : Z) :
  Props.rowCount props <= row ->
  (forall r, nextSelectableRow props down row = Some r ->
     0 <= r < Props.rowCount props /\ canSelectRow props r = true
     /\ (r = 0 -> forall r', 1 <= r' < Props.rowCount props ->
                    canSelectRow props r' = false))
  /\ (nextSelectableRow props down row = None <->
      forall r, 0 <= r < Props.rowCount props -> canSelectRow props r = false).
Proof.
  intros Hrow. unfold nextSelectableRow, nextSelectableRow_run.
  set (n := Props.rowCount props) in *.
  assert (E : (row <? 0) || (row >=? n) = true)
    by (destruct (row <? 0); [reflexivity|cbn; lia]).
  rewrite E.
  replace (Z.min (Z.max row (-1)) n) with n by lia.
  assert (Hraw : 0 < n -> forall i, 1 <= i <= n ->
            rawStep props down n i = if i <? n then i else 0).
  { intros Hn i Hi. unfold rawStep. fold n.
    rewrite Z.rem_mod_nonneg by lia.
    destruct (Z.ltb_spec i n).
    - symmetry. apply (Z.mod_unique _ n 2); lia.
    - symmetry. apply (Z.mod_unique _ n 3); lia. }
  split.
  - intros r Hr.
    destruct (nextSelectableRow_loop_found props down n (n + 1) _ 1 eq_refl r
                Hr) as (k & Hk & Hrk & Hsel & Hbefore).
    assert (Hn : 0 < n) by lia.
    rewrite Hraw in Hrk by lia.
    split; [destruct (Z.ltb_spec k n); lia|]. split; [exact Hsel|].
    intros H0 r' Hr'.
    assert (k = n) by (destruct (Z.ltb_spec k n); lia). subst k.
    specialize (Hbefore r' ltac:(lia)). rewrite Hraw in Hbefore by lia.
    destruct (Z.ltb_spec r' n); [exact Hbefore|lia].
  - rewrite (nextSelectableRow_loop_none props down n (n + 1) _ 1 eq_refl).
    split.
    + intros Hall r Hr. assert (Hn : 0 < n) by lia.
      destruct (Z.eq_dec r 0) as [->|Hne].
      * specialize (Hall n ltac:(lia)). rewrite Hraw in Hall by lia.
        rewrite Z.ltb_irrefl in Hall. exact Hall.
      * specialize (Hall r ltac:(lia)). rewrite Hraw in Hall by lia.
        destruct (Z.ltb_spec r n); [exact Hall|lia].
    + intros Hall j Hj. assert (Hn : 0 < n) by lia.
      rewrite Hraw by lia. apply Hall. destruct (Z.ltb_spec j n); lia.
Qed.

Lemma nextSelectableRow_down_from_beyond_witness :
  nextSelectableRow fiveRowsWithoutTwo down 7 = None <->
  forall r, 0 <= r < Props.rowCount fiveRowsWithoutTwo ->
    canSelectRow fiveRowsWithoutTwo r = false.
Proof.
  apply (proj2 (nextSelectableRow_down_from_beyond fiveRowsWithoutTwo 7
                  ltac:(simpl; lia))).
Defined.

(** X5.  Up from a negative row (no selection) in a list of two rows or more
    the search first looks at the row before the last one, and never at the
    last row: the rows looked at lie in [-1, rowCount - 2], and a selectable
    row [rowCount - 2] is what is returned. *)
Theorem nextSelectableRow_up_from_negative {A : Type}
    (props : Props.IListProps A) (row : Z) :
  row < 0 ->
  2 <= Props.rowCount props ->
  Forall (fun p => -1 <= p <= Props.rowCount props - 2)
         (nextSelectableRow_probes props up row)
  /\ (canSelectRow props (Props.rowCount props - 2) = true ->
      nextSelectableRow props up row = Some (Props.rowCount props - 2)).
Proof.
  intros Hrow Hn.
  unfold nextSelectableRow, nextSelectableRow_probes, nextSelectableRow_run.
  set (n := Props.rowCount props) in *.
  assert (E : (row <? 0) = true) by lia. rewrite E. cbn [orb].
  replace (Z.min (Z.max row (-1)) n) with (-1) by lia.
  assert (Hraw : forall i, 1 <= i <= n ->
            rawStep props up (-1) i = if i <? n then n - 1 - i else -1).
  { intros i Hi. unfold rawStep. fold n.
    destruct (Z.ltb_spec i n).
    - rewrite Z.rem_small by lia. lia.
    - replace (-1 + i * -1 + n) with (- (1)) by lia.
      rewrite Z.rem_opp_l by lia. rewrite Z.rem_small by lia. reflexivity. }
  split.
  - apply Forall_forall. intros p Hp.
    destruct (nextSelectableRow_loop_probes props up (-1) (n + 1) _ 1 eq_refl)
      as (_ & Hin & _).
    destruct (Hin p Hp) as (j & Hj & ->).
    rewrite Hraw by lia. destruct (Z.ltb_spec j n); lia.
  - intros Hsel.
    replace (n - 2) with (rawStep props up (-1) 1) in *
      by (rewrite Hraw by lia; destruct (Z.ltb_spec 1 n); lia).
    apply nextSelectableRow_loop_first; [lia|exact Hsel|intros j Hj; lia].
Qed.

Lemma nextSelectableRow_up_from_negative_witness :
  Forall (fun p => -1 <= p <= Props.rowCount (sampleProps (-1)) - 2)
         (nextSelectableRow_probes (sampleProps (-1)) up (-1))
  /\ nextSelectableRow (sampleProps (-1)) up (-1)
     = Some (Props.rowCount (sampleProps (-1)) - 2).
Proof.
  destruct (nextSelectableRow_up_from_negative (sampleProps (-1)) (-1)
              ltac:(lia) ltac:(simpl; lia)) as (Hprobes & Hfirst).
  split; [exact Hprobes|apply Hfirst; reflexivity].
Defined.

(** ** Callbacks *)

(** *** Calls that satisfy a predicate *)

Lemma emitsOnly_ret {X : Type} (P : Effect -> Prop) (x : X) :
  emitsOnly P (ret x).
Proof. intros w. constructor. Qed.

Lemma emitsOnly_this (P : Effect -> Prop) : emitsOnly P this.
Proof. intros w. constructor. Qed.

Lemma emitsOnly_update (P : Effect -> Prop) f : emitsOnly P (update f).
Proof. intros w. constructor. Qed.

Lemma emitsOnly_emit (P : Effect -> Prop) (e : Effect) :
  P e -> emitsOnly P (emit e).
Proof. intros He w. repeat constructor. exact He. Qed.

Lemma emitsOnly_bind {X Y : Type} (P : Effect -> Prop) (m : M X)
    (k : X -> M Y) :
  emitsOnly P m -> (forall x, emitsOnly P (k x)) -> emitsOnly P (bind m k).
Proof.
  intros Hm Hk w. unfold bind; cbn [effects].
  apply Forall_app. split; [apply Hm|apply Hk].
Qed.

Lemma emitsOnly_when (P : Effect -> Prop) (c : bool) (m : M unit) :
  (c = true -> emitsOnly P m) -> emitsOnly P (when c m).
Proof. intros Hm. destruct c; [auto|apply emitsOnly_ret]. Qed.

Ltac emits_step :=
  first
    [ apply emitsOnly_ret | apply emitsOnly_this | apply emitsOnly_update
    | apply emitsOnly_bind; [|intros ?]
    | apply emitsOnly_when; intros ?
    | apply emitsOnly_emit
    | match goal with
      | |- emitsOnly _ (match ?x with _ => _ end) => destruct x eqn:?
      | |- emitsOnly _ (if ?x then _ else _) => destruct x eqn:?
      end ].

Ltac emits_tac := repeat emits_step.

Section SelectableCallbacks.
Context {A : Type} (props : Props.IListProps A).

Lemma emitsOnly_moveSelection direction :
  emitsOnly (aboutSelectableRow props) (moveSelection props direction).
Proof.
  unfold moveSelection.
  destruct (nextSelectableRow props direction (Props.selectedRow props))
    as [newRow|] eqn:Hnext; [|apply emitsOnly_ret].
  emits_tac; try exact I.
  apply (nextSelectableRow_selectable props _ _ _ Hnext).
Qed.

Lemma emitsOnly_deliver (WIN32 : bool) (shallowEquals : A -> A -> bool)
    (s : Stimulus A) :
  emitsOnly (aboutSelectableRow props) (deliver WIN32 shallowEquals props s).
Proof.
  destruct s; cbn [deliver].
  - unfold handleKeyDown.
    repeat first [ apply emitsOnly_moveSelection | emits_step ]; exact I.
  - unfold onRowKeyDown. emits_tac; exact I.
  - unfold onRowClick. emits_tac. cbn.
    match goal with H : _ && _ = true |- _ => apply andb_prop in H; apply H end.
  - unfold onRowMouseOver. emits_tac; try exact I. cbn.
    match goal with
    | H : _ && canSelectRow _ _ = true |- _ => apply andb_prop in H; apply H
    end.
  - unfold onRowMouseDown. emits_tac; cbn; assumption.
  - unfold componentDidUpdate. emits_tac; exact I.
  - unfold onRef, disconnect, observe, setState_size. emits_tac.
  - unfold onGridRef. emits_tac.
  - unfold onFakeScrollRef. emits_tac.
  - unfold onFocusedItemRef. emits_tac.
  - apply emitsOnly_bind; [apply emitsOnly_this|intros i].
    apply emitsOnly_when. intros _.
    induction entries as [|target rest0 IH]; cbn [resizeObserverCallback];
      [apply emitsOnly_ret|].
    apply emitsOnly_bind; [apply emitsOnly_this|intros i0].
    apply emitsOnly_bind; [|intros _; exact IH].
    apply emitsOnly_when. intros _.
    apply emitsOnly_bind;
      [destruct (updateSizeTimeoutId i0); intros w; constructor|intros _].
    apply emitsOnly_bind; [intros w; constructor|intros id0].
    apply emitsOnly_update.
  - intros w. unfold runImmediate.
    destruct (existsb _ _); [|constructor].
    unfold onResized, clearImmediate, setState_size. run_method.
    match goal with |- context [if ?c then _ else _] => destruct c end;
      constructor.
  - unfold onScroll. emits_tac; exact I.
  - unfold onFakeScroll. emits_tac; exact I.
  - unfold renderContents, renderGrid. emits_tac.
  - unfold focus. emits_tac; exact I.
  - unfold forceUpdate. emits_tac; exact I.
Qed.
End SelectableCallbacks.

Theorem callbacks_only_about_selectable_rows {A : Type} (WIN32 : bool)
    (shallowEquals : A -> A -> bool) (props : Props.IListProps A)
    (s : Stimulus A) (w : World) (row : Z) :
  let calls := effects (deliver WIN32 shallowEquals props s w) in
  (exists source, In (CallOnSelectionChanged row source) calls)
  \/ In (CallOnRowMouseDown row) calls
  \/ In (CallOnRowClick row mouseclick) calls ->
  canSelectRow props row = true.
Proof.
  intros calls Hin.
  assert (Hall := emitsOnly_deliver props WIN32 shallowEquals s w).
  rewrite Forall_forall in Hall.
  destruct Hin as [[source Hin]|[Hin|Hin]]; exact (Hall _ Hin).
Qed.

Lemma callbacks_only_about_selectable_rows_witness :
  canSelectRow (sampleProps 0) 1 = true.
Proof.
  apply (callbacks_only_about_selectable_rows true Z.eqb (sampleProps 0)
           (KeyDown arrowDown) sampleWorld 1).
  left. exists keyboard. simpl. left. reflexivity.
Defined.

(** X8.  When the default of a key event was prevented (before the event, or
    by the consumer's [onRowKeyDown]), or the key is not ArrowDown or ArrowUp,
    [handleKeyDown] leaves the instance as it was and calls nothing but that
    [onRowKeyDown] (for a selected row, when supplied). *)
Theorem handleKeyDown_ignored {A : Type} (props : Props.IListProps A)
    (event : KeyboardEvent) (w : World) :
  keyIgnored props event ->
  after (handleKeyDown props event w) = w
  /\ effects (handleKeyDown props event w) = keyDownCallback props.
Proof.
  intros Hignored. unfold handleKeyDown, keyDownCallback. run_method.
  destruct Hignored as [Hprev|[(callback & Hcb & Hrow & Hret)|(Hdown & Hup)]].
  - rewrite Hprev.
    destruct (Props.onRowKeyDown props) as [cb|];
      [destruct (Props.selectedRow props >=? 0)|]; cbn; split; reflexivity.
  - rewrite Hcb.
    replace (Props.selectedRow props >=? 0) with true by lia.
    cbn. rewrite Hret, orb_true_r. cbn. split; reflexivity.
  - apply String.eqb_neq in Hdown, Hup.
    destruct (Props.onRowKeyDown props) as [cb|];
      [destruct (Props.selectedRow props >=? 0)|]; cbn;
      match goal with
      | |- context [if ?c then _ else _] => destruct c
      end; cbn; rewrite ?Hdown, ?Hup; cbn; split; reflexivity.
Qed.

Lemma handleKeyDown_ignored_witness :
  after (handleKeyDown (sampleProps 0) enterKey sampleWorld) = sampleWorld
  /\ effects (handleKeyDown (sampleProps 0) enterKey sampleWorld)
     = keyDownCallback (sampleProps 0).
Proof.
  apply handleKeyDown_ignored. right. right. split; discriminate.
Defined.

(** X9.  An arrow key whose default was not prevented runs [moveSelection] in
    its direction and then prevents the default, also when no row can be
    selected: then the instance is as it was and [preventDefault] is the only
    call after the consumer's [onRowKeyDown]. *)
Theorem handleKeyDown_arrow_consumed {A : Type} (props : Props.IListProps A)
    (event : KeyboardEvent) (direction : Direction) (w : World) :
  defaultPrevented event = false ->
  (forall callback, Props.onRowKeyDown props = Some callback ->
     0 <= Props.selectedRow props ->
     callback (Props.selectedRow props) event = false) ->
  key event = match direction with
              | down => "ArrowDown"%string
              | up => "ArrowUp"%string
              end ->
  let handled := handleKeyDown props event w in
  effects handled
  = keyDownCallback props ++ effects (moveSelection props direction w)
    ++ [PreventDefault]
  /\ after handled = after (moveSelection props direction w)
  /\ (nextSelectableRow props direction (Props.selectedRow props) = None ->
      after handled = w
      /\ effects handled = keyDownCallback props ++ [PreventDefault]).
Proof.
  intros Hprev Hcb Hkey. cbv zeta.
  assert (Hmain :
    effects (handleKeyDown props event w)
    = keyDownCallback props ++ effects (moveSelection props direction w)
      ++ [PreventDefault]
    /\ after (handleKeyDown props event w)
       = after (moveSelection props direction w)).
  { unfold handleKeyDown, keyDownCallback. run_method. rewrite Hprev, Hkey.
    destruct (Props.onRowKeyDown props) as [cb|] eqn:Hprop;
      [destruct (Z.geb_spec (Props.selectedRow props) 0) as [Hrow|Hrow];
       [cbn; rewrite (Hcb cb eq_refl) by lia|]|];
      cbn; destruct direction; cbn; split; reflexivity. }
  destruct Hmain as (Heff & Haft).
  split; [exact Heff|]. split; [exact Haft|].
  intros Hnone. rewrite Heff, Haft. unfold moveSelection. rewrite Hnone.
  split; reflexivity.
Qed.

Lemma handleKeyDown_arrow_consumed_witness :
  let handled :=
    handleKeyDown (listProps 0 (-1) None None None) arrowDown sampleWorld in
  after handled = sampleWorld
  /\ effects handled
     = keyDownCallback (listProps 0 (-1) None None None) ++ [PreventDefault].
Proof.
  apply (proj2 (proj2 (handleKeyDown_arrow_consumed
                         (listProps 0 (-1) None None None) arrowDown down
                         sampleWorld eq_refl
                         ltac:(intros cb Hcb; discriminate Hcb) eq_refl))).
  reflexivity.
Defined.



(** X7.  A row that [canSelectRow] rejects does not react to the pointer:
    mouse down, mouse over and click on it call nothing and change
    nothing. *)
Theorem unselectable_row_is_inert {A : Type} (props : Props.IListProps A)
    (row : Z) (w : World) :
  canSelectRow props row = false ->
  onRowMouseDown props row w = {| value := tt; after := w; effects := [] |}
  /\ onRowMouseOver props row w = {| value := tt; after := w; effects := [] |}
  /\ onRowClick props row w = {| value := tt; after := w; effects := [] |}.
Proof.
  intros Hsel. unfold onRowMouseDown, onRowMouseOver, onRowClick.
  rewrite Hsel, andb_false_r. cbn. repeat split; reflexivity.
Qed.

Lemma unselectable_row_is_inert_witness :
  onRowMouseDown fiveRowsWithoutTwo 2 sampleWorld
  = {| value := tt; after := sampleWorld; effects := [] |}
  /\ onRowMouseOver fiveRowsWithoutTwo 2 sampleWorld
     = {| value := tt; after := sampleWorld; effects := [] |}
  /\ onRowClick fiveRowsWithoutTwo 2 sampleWorld
     = {| value := tt; after := sampleWorld; effects := [] |}.
Proof. apply unselectable_row_is_inert. reflexivity. Defined.

(** ** Focus and updates *)

(** X12.  With a focus row pending and its element attached,
    [componentDidUpdate] focuses that element first, asks for a re-render and
    clears the focus row; the update that follows, whatever its props, moves
    no focus. *)
Theorem componentDidUpdate_focus_once {A : Type}
    (shallowEquals : A -> A -> bool)
    (props prevProps nextProps : Props.IListProps A)
    (prevState : IListState) (w : World) (item : HTMLElement) :
  0 <= focusRow (inst w) ->
  focusItem (inst w) = Some item ->
  let first := componentDidUpdate shallowEquals props prevProps prevState w in
  let second :=
    componentDidUpdate shallowEquals nextProps props
      (state (inst (after first))) (after first) in
  (exists rest, effects first = FocusElement item :: ReactForceUpdate :: rest
     /\ forall e, ~ In (FocusElement e) rest)
  /\ focusRow (inst (after first)) = -1
  /\ forall e, ~ In (FocusElement e) (effects second).
Proof.
  intros Hrow Hitem. cbv zeta.
  unfold componentDidUpdate, forceUpdate.
  destruct w as [[fi fs str fr ls le g ro us st] im ni].
  cbn [inst focusRow focusItem] in Hrow, Hitem. subst fi.
  cbn. destruct (Z.geb_spec fr 0); [|lia].
  cbn. destruct g as [g|]; cbn;
    (split; [eexists; split; [reflexivity|]|split; [reflexivity|]]);
    intros e Hin; unfold when in Hin; cbn in Hin;
    repeat match type of Hin with
           | context [if ?c then _ else _] => destruct c; cbn in Hin
           end; intuition discriminate.
Qed.

Lemma componentDidUpdate_focus_once_witness :
  let w := after (onFocusedItemRef (Some 7)
                    (after (scrollRowToVisible (sampleProps 0) 1 sampleWorld))) in
  let first := componentDidUpdate Z.eqb (sampleProps 1) (sampleProps 0)
                 (state (inst w)) w in
  focusRow (inst (after first)) = -1
  /\ effects first = [FocusElement 7; ReactForceUpdate; GridForceUpdate].
Proof.
  cbv zeta.
  destruct (componentDidUpdate_focus_once Z.eqb (sampleProps 1) (sampleProps 0)
              (sampleProps 1)
              (state (inst (after (onFocusedItemRef (Some 7)
                 (after (scrollRowToVisible (sampleProps 0) 1 sampleWorld))))))
              (after (onFocusedItemRef (Some 7)
                 (after (scrollRowToVisible (sampleProps 0) 1 sampleWorld))))
              7 ltac:(simpl; lia) eq_refl) as (_ & Hrow & _).
  split; [exact Hrow|reflexivity].
Defined.

(** X11.  [focus()] on a list whose selected row is in [0, rowCount) (and
    [focusOnHover] not false) asks the grid to scroll to that row, makes it
    the focus row and forces a re-render; once the row's element is attached
    the next [componentDidUpdate] focuses it and clears the focus row. *)
Theorem focus_selected_row {A : Type} (shallowEquals : A -> A -> bool)
    (props nextProps : Props.IListProps A) (w : World)
    (element : HTMLElement) :
  0 <= Props.selectedRow props < Props.rowCount props ->
  Props.focusOnHover props <> Some false ->
  let focused := focus props w in
  let rendered := after (onFocusedItemRef (Some element) (after focused)) in
  let updated :=
    componentDidUpdate shallowEquals nextProps props (state (inst rendered))
      rendered in
  scrollToRow (inst (after focused)) = Props.selectedRow props
  /\ focusRow (inst (after focused)) = Props.selectedRow props
  /\ In ReactForceUpdate (effects focused)
  /\ In (FocusElement element) (effects updated)
  /\ focusRow (inst (after updated)) = -1.
Proof.
  intros Hsel Hhover. cbv zeta.
  unfold focus.
  replace (Props.selectedRow props >=? 0) with true by lia.
  replace (Props.selectedRow props <? Props.rowCount props) with true by lia.
  cbn [andb].
  unfold componentDidUpdate, onFocusedItemRef, scrollRowToVisible, forceUpdate.
  destruct w as [[fi fs str fr ls le [g|] ro us st] im ni];
    destruct (Props.focusOnHover props) as [[|]|]; try congruence; cbn;
    (replace (Props.selectedRow props >=? 0) with true by lia); cbn;
    repeat split; auto.
Qed.

Lemma focus_selected_row_witness :
  let focused := focus (sampleProps 1) sampleWorld in
  let rendered := after (onFocusedItemRef (Some 7) (after focused)) in
  let updated :=
    componentDidUpdate Z.eqb (sampleProps 1) (sampleProps 1)
      (state (inst rendered)) rendered in
  scrollToRow (inst (after focused)) = Props.selectedRow (sampleProps 1)
  /\ focusRow (inst (after focused)) = Props.selectedRow (sampleProps 1)
  /\ In ReactForceUpdate (effects focused)
  /\ In (FocusElement 7) (effects updated)
  /\ focusRow (inst (after updated)) = -1.
Proof.
  apply (focus_selected_row Z.eqb (sampleProps 1) (sampleProps 1) sampleWorld 7);
    [simpl; lia|discriminate].
Defined.

(** X13.  A row to scroll to is handed to the grid once: the render after
    [scrollRowToVisible] passes that row as [scrollToRow] and forgets it, the
    render after that passes -1; a [scrollToRow] prop overrides both. *)
Theorem renderGrid_scrolls_once {A : Type}
    (props renderProps laterProps : Props.IListProps A) (row : Z)
    (width height width' height' : Z) (w : World) :
  let requested := after (scrollRowToVisible props row w) in
  let first := renderGrid renderProps width height requested in
  let second := renderGrid laterProps width' height' (after first) in
  gridScrollToRow (value first)
  = match Props.scrollToRow renderProps with Some r => r | None => row end
  /\ gridScrollToRow (value second)
     = match Props.scrollToRow laterProps with Some r => r | None => -1 end
  /\ scrollToRow (inst (after first)) = -1.
Proof.
  cbv zeta. unfold renderGrid, scrollRowToVisible, forceUpdate.
  destruct w as [[fi fs str fr ls le [g|] ro us st] im ni];
    destruct (Props.focusOnHover props) as [[|]|];
    destruct (Props.scrollToRow renderProps), (Props.scrollToRow laterProps);
    cbn; repeat split; reflexivity.
Qed.

(** X14.  Without a pending focus, [componentDidUpdate] does nothing at all
    when the grid is not mounted, or when [rowCount], [width] or [height]
    changed (the grid re-rendered by itself). *)
Theorem componentDidUpdate_noop {A : Type} (shallowEquals : A -> A -> bool)
    (props prevProps : Props.IListProps A) (prevState : IListState)
    (w : World) :
  focusRow (inst w) < 0 \/ focusItem (inst w) = None ->
  grid (inst w) = None
  \/ Props.rowCount props <> Props.rowCount prevProps
  \/ width (state (inst w)) <> width prevState
  \/ height (state (inst w)) <> height prevState ->
  componentDidUpdate shallowEquals props prevProps prevState w
  = {| value := tt; after := w; effects := [] |}.
Proof.
  intros Hfocus Hcase. unfold componentDidUpdate. run_method.
  assert (Hbranch :
    match (focusRow (inst w) >=? 0), focusItem (inst w) with
    | true, Some _ => False
    | _, _ => True
    end).
  { destruct (Z.geb_spec (focusRow (inst w)) 0), (focusItem (inst w));
      auto; destruct Hfocus; [lia|discriminate]. }
  assert (Hgate :
    is_some (grid (inst w))
    && negb (negb (Props.rowCount props =? Props.rowCount prevProps)
             || negb (option_Z_eqb (width (state (inst w))) (width prevState))
             || negb (option_Z_eqb (height (state (inst w)))
                        (height prevState))) = false).
  { destruct Hcase as [Hg|[Hc|[Hw|Hh]]].
    - rewrite Hg. reflexivity.
    - apply Z.eqb_neq in Hc. rewrite Hc. cbn. apply andb_false_r.
    - destruct (option_Z_eqb (width (state (inst w))) (width prevState))
        eqn:E; [apply option_Z_eqb_eq in E; contradiction|].
      cbn. rewrite orb_true_r. apply andb_false_r.
    - destruct (option_Z_eqb (height (state (inst w))) (height prevState))
        eqn:E; [apply option_Z_eqb_eq in E; contradiction|].
      cbn. rewrite !orb_true_r. apply andb_false_r. }
  destruct (focusRow (inst w) >=? 0), (focusItem (inst w));
    try contradiction;
    destruct (is_some (grid (inst w))); cbn in Hgate |- *;
    try reflexivity;
    match goal with
    | |- context [if negb ?c then _ else _] =>
        destruct c; cbn in Hgate |- *; [reflexivity|discriminate]
    end.
Qed.

Lemma componentDidUpdate_noop_witness :
  componentDidUpdate Z.eqb (listProps 4 1 None None None) (sampleProps 0)
    (state (inst sampleWorld)) sampleWorld
  = {| value := tt; after := sampleWorld; effects := [] |}.
Proof.
  apply componentDidUpdate_noop;
    [left; simpl; lia|right; left; simpl; lia].
Defined.

(** ** Resizing *)

(** *** Methods that leave a part of the instance alone *)

Section Keeps.
Context {Y : Type} (part : Instance -> Y).

Lemma keeps_ret {X : Type} (x : X) : keeps part (ret x).
Proof. intros w. reflexivity. Qed.

Lemma keeps_emit (e : Effect) : keeps part (emit e).
Proof. intros w. reflexivity. Qed.

Lemma keeps_this : keeps part this.
Proof. intros w. reflexivity. Qed.

Lemma keeps_bind {X Z : Type} (m : M X) (k : X -> M Z) :
  keeps part m -> (forall x, keeps part (k x)) -> keeps part (bind m k).
Proof.
  intros Hm Hk w. unfold bind; cbn [after]. rewrite Hk. apply Hm.
Qed.

Lemma keeps_when (c : bool) (m : M unit) :
  keeps part m -> keeps part (when c m).
Proof. intros Hm. destruct c; [exact Hm|apply keeps_ret]. Qed.

Lemma keeps_update (f : Instance -> Instance) :
  (forall i, part (f i) = part i) -> keeps part (update f).
Proof. intros Hf w. apply Hf. Qed.

Lemma keeps_setImmediate target : keeps part (setImmediate target).
Proof. intros w. reflexivity. Qed.

Lemma keeps_clearImmediate id : keeps part (clearImmediate id).
Proof. intros w. reflexivity. Qed.
End Keeps.

Ltac keeps_step :=
  first
    [ apply keeps_ret | apply keeps_emit | apply keeps_this
    | apply keeps_setImmediate | apply keeps_clearImmediate
    | apply keeps_bind; [|intros ?]
    | apply keeps_when
    | apply keeps_update; intros ?; reflexivity
    | match goal with
      | |- keeps _ (match ?x with _ => _ end) => destruct x
      | |- keeps _ (if ?x then _ else _) => destruct x
      end ].

Ltac keeps_tac := repeat keeps_step.

Lemma keeps_resizeObserverCallback {Y : Type} (part : Instance -> Y) entries :
  (forall v i, part (set_updateSizeTimeoutId v i) = part i) ->
  keeps part (resizeObserverCallback entries).
Proof.
  intros Hpart. induction entries as [|target rest IH];
    cbn [resizeObserverCallback]; [apply keeps_ret|].
  apply keeps_bind; [apply keeps_this|intros i].
  apply keeps_bind; [|intros _; exact IH].
  apply keeps_when.
  apply keeps_bind; [destruct (updateSizeTimeoutId i); keeps_tac|intros _].
  apply keeps_bind; [apply keeps_setImmediate|intros id].
  apply keeps_update. intros i0. apply Hpart.
Qed.

Lemma keeps_runImmediate {Y : Type} (part : Instance -> Y) id ow oh :
  (forall v i, part (set_updateSizeTimeoutId v i) = part i) ->
  (forall v i, part (set_state v i) = part i) ->
  keeps part (runImmediate id ow oh).
Proof.
  intros H1 H2 w. unfold runImmediate.
  destruct (existsb _ _); [|reflexivity].
  unfold onResized, clearImmediate, setState_size. run_method.
  match goal with |- context [if ?c then _ else _] => destruct c end;
    cbn; rewrite ?H2, ?H1; reflexivity.
Qed.

Lemma observesContainer_deliver {A : Type} (WIN32 : bool)
    (shallowEquals : A -> A -> bool) (props : Props.IListProps A)
    (s : Stimulus A) (w : World) :
  observesContainer (inst w) ->
  observesContainer (inst (after (deliver WIN32 shallowEquals props s w))).
Proof.
  intros Hw.
  assert (Hkeep : forall m : M unit, keeps observation m ->
            observesContainer (inst (after (m w)))).
  { intros m Hm targets. specialize (Hm w). unfold observation in Hm.
    injection Hm as Hl Hr. rewrite Hl, Hr. apply Hw. }
  destruct s; cbn [deliver].
  1-6: apply Hkeep. 8-17: apply Hkeep.
  - unfold handleKeyDown, moveSelection, scrollRowToVisible, forceUpdate.
    keeps_tac.
  - unfold onRowKeyDown. keeps_tac.
  - unfold onRowClick. keeps_tac.
  - unfold onRowMouseOver, scrollRowToVisible, forceUpdate. keeps_tac.
  - unfold onRowMouseDown. keeps_tac.
  - unfold componentDidUpdate, forceUpdate. keeps_tac.
  - (* the container ref *)
    unfold onRef, disconnect, observe, setState_size. run_method.
    destruct (resizeObserver (inst w)) as [targets0|] eqn:Hro; cbn;
      rewrite ?Hro; cbn; [|intros targets; cbn; rewrite Hro; discriminate].
    destruct element as [e|]; cbn; rewrite ?Hro; cbn;
      intros targets; cbn; intros [= <-]; reflexivity.
  - unfold onGridRef. keeps_tac.
  - unfold onFakeScrollRef. keeps_tac.
  - unfold onFocusedItemRef. keeps_tac.
  - apply keeps_bind; [apply keeps_this|intros i]. apply keeps_when.
    apply keeps_resizeObserverCallback. reflexivity.
  - apply keeps_runImmediate; reflexivity.
  - unfold onScroll. keeps_tac.
  - unfold onFakeScroll. keeps_tac.
  - unfold renderContents, renderGrid. keeps_tac.
  - unfold focus, scrollRowToVisible, forceUpdate. keeps_tac.
  - unfold forceUpdate. keeps_tac.
Qed.

(** X15.  Whatever happened to the component since it was mounted, its resize
    observer (if there is one) watches the current container element and
    nothing else, and nothing when there is no container. *)
Theorem resizeObserver_watches_container {A : Type} (WIN32 : bool)
    (shallowEquals : A -> A -> bool) (createUniqueId : string -> string)
    (hasResizeObserver : bool) (firstImmediate : Z)
    (history : list (Props.IListProps A * Stimulus A)) :
  observesContainer
    (inst (after (run WIN32 shallowEquals history
                    (mounted createUniqueId hasResizeObserver
                       firstImmediate)))).
Proof.
  assert (Hrun : forall w, observesContainer (inst w) ->
            observesContainer (inst (after (run WIN32 shallowEquals history w)))).
  { induction history as [|[props s] rest IH]; intros w Hw; [exact Hw|].
    cbn [run]. unfold bind. cbn [after].
    apply IH, observesContainer_deliver, Hw. }
  apply Hrun. intros targets. unfold mounted, componentWillMount.
  destruct hasResizeObserver; cbn; [intros [= <-]; reflexivity|discriminate].
Qed.

(** X16.  Resize notifications are debounced: after a batch of entries that
    names the container at least once, exactly one deferred callback is
    queued, a new one, and [updateSizeTimeoutId] names it; a batch that does
    not name the container changes nothing. *)
Theorem resizeObserverCallback_debounces (token : string)
    (element : HTMLElement) (entries : list HTMLElement) :
  forall w, tracked token w ->
    listElement (inst w) = Some element ->
    let notified := after (resizeObserverCallback entries w) in
    (In element entries ->
     exists id, nextImmediate w <= id
       /\ immediates notified = [(id, element)]
       /\ updateSizeTimeoutId (inst notified) = Some id)
    /\ (~ In element entries -> notified = w).
Proof.
  induction entries as [|target rest IH]; intros w Hw Hlist; cbv zeta.
  - split; [intros []|reflexivity].
  - assert (Hstep :
      after (resizeObserverCallback (target :: rest) w)
      = after (resizeObserverCallback rest
          (after (when (option_Z_eqb (Some target) (listElement (inst w)))
                   (match updateSizeTimeoutId (inst w) with
                    | Some id => clearImmediate id
                    | None => ret tt
                    end ;;
                    id <- setImmediate target ;;
                    update (set_updateSizeTimeoutId (Some id))) w))))
      by reflexivity.
    rewrite Hstep. clear Hstep. rewrite Hlist.
    destruct (option_Z_eqb (Some target) (Some element)) eqn:Heq.
    + apply option_Z_eqb_eq in Heq. injection Heq as ->.
      set (w1 := after (when true
                   (match updateSizeTimeoutId (inst w) with
                    | Some id => clearImmediate id
                    | None => ret tt
                    end ;;
                    id <- setImmediate element ;;
                    update (set_updateSizeTimeoutId (Some id))) w)).
      assert (H1 : immediates w1 = [(nextImmediate w, element)]
                   /\ updateSizeTimeoutId (inst w1) = Some (nextImmediate w)
                   /\ nextImmediate w1 = nextImmediate w + 1
                   /\ listElement (inst w1) = Some element
                   /\ rowIdPrefix (state (inst w1)) = Some token).
      { destruct Hw as (T1 & T2). subst w1.
        unfold when, setImmediate, clearImmediate.
        destruct (updateSizeTimeoutId (inst w)) as [id|]; run_method; cbn.
        - destruct T2 as (t & ->). cbn. rewrite Z.eqb_refl. cbn. auto.
        - rewrite T2. cbn. auto. }
      destruct H1 as (Him & Hid & Hnext & Hl1 & Hp1).
      assert (Hw1 : tracked token w1).
      { split; [exact Hp1|]. rewrite Hid. eauto. }
      destruct (IH w1 Hw1 Hl1) as (Hin & Hout).
      split; [|intros Hno; exfalso; apply Hno; left; reflexivity].
      intros _. destruct (in_dec Z.eq_dec element rest) as [Hr|Hr].
      * destruct (Hin Hr) as (id & Hge & Hq & Hu).
        exists id. repeat split; [lia|exact Hq|exact Hu].
      * rewrite (Hout Hr). exists (nextImmediate w).
        repeat split; [lia|exact Him|exact Hid].
    + assert (Hne : target <> element).
      { intros ->. rewrite option_Z_eqb_refl in Heq. discriminate. }
      cbn [when ret after]. destruct (IH w Hw Hlist) as (Hin & Hout).
      split.
      * intros [Ht|Hr]; [contradiction|apply Hin, Hr].
      * intros Hno. apply Hout. intros Hr. apply Hno. right. exact Hr.
Qed.

Lemma resizeObserverCallback_debounces_witness :
  let w := after (onRef (Some 1) (mounted sampleCreateUniqueId true 0)) in
  exists id, nextImmediate w <= id
    /\ immediates (after (resizeObserverCallback [1; 5; 1] w)) = [(id, 1)]
    /\ updateSizeTimeoutId (inst (after (resizeObserverCallback [1; 5; 1] w)))
       = Some id.
Proof.
  apply (proj1 (resizeObserverCallback_debounces "__ListRow" 1 [1; 5; 1]
                  (after (onRef (Some 1) (mounted sampleCreateUniqueId true 0)))
                  ltac:(split; reflexivity) eq_refl)).
  left. reflexivity.
Defined.

(** X17.  When the deferred callback named by [updateSizeTimeoutId] runs, the
    state holds the measured width and height, the id token is kept, and no
    callback stays queued; an id that is not the pending one (a cancelled
    callback) changes nothing. *)
Theorem runImmediate_measures (token : string)
    (id offsetWidth offsetHeight : Z) (w : World) :
  tracked token w ->
  let measured := after (runImmediate id offsetWidth offsetHeight w) in
  (updateSizeTimeoutId (inst w) = Some id ->
   width (state (inst measured)) = Some offsetWidth
   /\ height (state (inst measured)) = Some offsetHeight
   /\ rowIdPrefix (state (inst measured)) = Some token
   /\ immediates measured = []
   /\ updateSizeTimeoutId (inst measured) = None)
  /\ (updateSizeTimeoutId (inst w) <> Some id -> measured = w).
Proof.
  intros (T1 & T2). cbv zeta. unfold runImmediate. split.
  - intros Hid. rewrite Hid in T2. destruct T2 as (t & Ht).
    rewrite Ht. cbn [existsb fst]. rewrite Z.eqb_refl. cbn [orb].
    unfold onResized, clearImmediate, setState_size. run_method.
    rewrite Ht. cbn [filter fst]. rewrite Z.eqb_refl. cbn [negb].
    destruct (option_Z_eqb (width (state (inst w))) (Some offsetWidth)) eqn:Ew;
      destruct (option_Z_eqb (height (state (inst w))) (Some offsetHeight))
        eqn:Eh; cbn; rewrite ?Ew, ?Eh; cbn; repeat split; auto;
      try (apply option_Z_eqb_eq in Ew; exact Ew);
      try (apply option_Z_eqb_eq in Eh; exact Eh).
  - intros Hid.
    assert (Hq : existsb (fun p => fst p =? id) (immediates w) = false).
    { destruct (updateSizeTimeoutId (inst w)) as [id0|].
      - destruct T2 as (t & ->). cbn.
        destruct (Z.eqb_spec id0 id); [congruence|reflexivity].
      - rewrite T2. reflexivity. }
    rewrite Hq. reflexivity.
Qed.

Lemma runImmediate_measures_witness :
  let measured := after (runImmediate 2 800 600 pendingWorld) in
  width (state (inst measured)) = Some 800
  /\ height (state (inst measured)) = Some 600
  /\ rowIdPrefix (state (inst measured)) = Some "__ListRow"%string
  /\ immediates measured = []
  /\ updateSizeTimeoutId (inst measured) = None.
Proof.
  apply (proj1 (runImmediate_measures "__ListRow" 2 800 600 pendingWorld
                  ltac:(split; [reflexivity|exists 1; reflexivity]))).
  reflexivity.
Defined.

(** ** Rendering *)

(** X18.  With a resize observer, [render] renders no grid while the width
    or the height is unknown or 0, and leaves the instance untouched, so a
    pending scroll request survives; once both are known and not 0 the grid
    is rendered with that size and the pending scroll row (or the
    [scrollToRow] prop), and the request is cleared. *)
Theorem render_waits_for_size {A E : Type} (WIN32 : bool)
    (props : Props.IListProps A) (rest : RenderProps.t E)
    (autoSize : Z * Z) (w : World) :
  resizeObserver (inst w) <> None ->
  let rendered := render WIN32 props rest autoSize w in
  (width (state (inst w)) = None \/ width (state (inst w)) = Some 0
   \/ height (state (inst w)) = None \/ height (state (inst w)) = Some 0 ->
   listContent (value rendered) = None
   /\ after rendered = w /\ effects rendered = [])
  /\ (forall width0 height0,
        width (state (inst w)) = Some width0 -> width0 <> 0 ->
        height (state (inst w)) = Some height0 -> height0 <> 0 ->
        exists g, listContent (value rendered)
                  = Some (g, if WIN32
                             then Some (renderFakeScroll props height0)
                             else None)
          /\ gridWidth g = width0 /\ gridHeight g = height0
          /\ gridScrollToRow g
             = match Props.scrollToRow props with
               | Some r => r
               | None => scrollToRow (inst w)
               end
          /\ scrollToRow (inst (after rendered)) = -1).
Proof.
  intros Hobs. cbv zeta. unfold render, renderContents, renderGrid.
  destruct w as [[fi fs str fr ls le g [targets|] us [h0 w0 prefix]] im ni];
    [|cbn in Hobs; congruence].
  cbn [inst state width height scrollToRow]. split.
  - intros Hcase. destruct w0 as [w0|], h0 as [h0|]; cbn;
      try (repeat split; reflexivity).
    destruct (Z.eqb_spec w0 0), (Z.eqb_spec h0 0); cbn;
      try (repeat split; reflexivity).
    exfalso. destruct Hcase as [Hc|[Hc|[Hc|Hc]]]; congruence.
  - intros width0 height0 -> Hw0 -> Hh0.
    apply Z.eqb_neq in Hw0, Hh0. cbn. rewrite Hw0, Hh0. cbn.
    eexists. repeat split.
Qed.

Lemma render_waits_for_size_witness :
  let requested := after (scrollRowToVisible (sampleProps 1) 1 sampleWorld) in
  let rendered := render true (sampleProps 1) sampleRest (0, 0) requested in
  listContent (value rendered) = None
  /\ after rendered = requested /\ effects rendered = [].
Proof.
  apply (proj1 (render_waits_for_size true (sampleProps 1) sampleRest (0, 0)
                  (after (scrollRowToVisible (sampleProps 1) 1 sampleWorld))
                  ltac:(discriminate))).
  left. reflexivity.
Defined.

Example render_measured :
  let requested := after (scrollRowToVisible (sampleProps 1) 1 measuredWorld) in
  let rendered := render true (sampleProps 1) sampleRest (0, 0) requested in
  value rendered
  = {| listId := None; listRole := "listbox";
       listActiveDescendant := Some "__ListRow-1"%string;
       listContent :=
         Some ({| gridWidth := 640; gridHeight := 480; gridRowCount := 3;
                  gridRowHeight := FixedHeight 30; gridScrollToRow := 1;
                  gridTabIndex := -1 |},
               Some {| containerHeight := 480; spacerHeight := 90 |}) |}.
Proof. reflexivity. Qed.

(** *** Row ids *)

Lemma string_app_inv_head (p s1 s2 : string) :
  (p ++ s1)%string = (p ++ s2)%string -> s1 = s2.
Proof.
  induction p as [|c p IH]; cbn; [auto|]. intros [= H]. apply IH, H.
Qed.

Lemma string_of_number_inj (n m : Z) :
  string_of_number n = string_of_number m -> n = m.
Proof.
  unfold string_of_number. intros H.
  apply DecimalZ.to_int_inj.
  assert (Hs : NilEmpty.int_of_string (NilEmpty.string_of_int (Z.to_int n))
               = NilEmpty.int_of_string (NilEmpty.string_of_int (Z.to_int m)))
    by (rewrite H; reflexivity).
  rewrite !NilEmpty.isi in Hs. congruence.
Qed.

Lemma rowIdOf_inj (prefix : string) (n m : Z) :
  rowIdOf prefix n = rowIdOf prefix m -> n = m.
Proof.
  unfold rowIdOf. intros H.
  apply string_app_inv_head in H. apply (string_app_inv_head "-") in H.
  apply string_of_number_inj, H.
Qed.

(** X19.  Rows that are given an id are given different ids, and
    [aria-activedescendant] of the list is the id of the selected row ([render]
    and [renderRow] agree); it is absent when [selectedRow] is -1. *)
Theorem row_ids_identify_rows {A E : Type} (WIN32 : bool)
    (props : Props.IListProps A) (rest : RenderProps.t E)
    (autoSize : Z * Z) (w : World) :
  (forall r1 r2,
     rowElementId (renderRow props rest (inst w) r1) <> None ->
     rowElementId (renderRow props rest (inst w) r1)
     = rowElementId (renderRow props rest (inst w) r2) ->
     r1 = r2)
  /\ (Props.selectedRow props <> -1 ->
      listActiveDescendant (value (render WIN32 props rest autoSize w))
      = rowElementId (renderRow props rest (inst w) (Props.selectedRow props)))
  /\ (Props.selectedRow props = -1 ->
      listActiveDescendant (value (render WIN32 props rest autoSize w))
      = None).
Proof.
  split; [|split].
  - intros r1 r2. unfold renderRow. cbn [rowElementId].
    destruct (rowIdPrefix (state (inst w))) as [prefix|]; [|congruence].
    destruct (negb (prefix =? "")%string); [|congruence].
    intros _ [= H]. apply (rowIdOf_inj prefix), H.
  - intros Hsel. apply Z.eqb_neq in Hsel.
    unfold render, renderRow. run_method. cbn [rowElementId].
    rewrite Hsel. cbn [negb andb]. etransitivity; [|reflexivity].
    destruct (resizeObserver (inst w));
      repeat match goal with
             | |- context [match ?x with _ => _ end] => destruct x; cbn
             end; reflexivity.
  - intros Hsel. unfold render. run_method. rewrite Hsel. cbn [negb andb Z.eqb].
    destruct (resizeObserver (inst w));
      repeat match goal with
             | |- context [match ?x with _ => _ end] => destruct x; cbn
             end; reflexivity.
Qed.

Lemma row_ids_identify_rows_witness :
  listActiveDescendant
    (value (render true (sampleProps 1) sampleRest (0, 0) measuredWorld))
  = rowElementId (renderRow (sampleProps 1) sampleRest (inst measuredWorld)
                    (Props.selectedRow (sampleProps 1))).
Proof.
  apply (proj1 (proj2 (row_ids_identify_rows true (sampleProps 1) sampleRest
                         (0, 0) measuredWorld))).
  discriminate.
Defined.

(** X20.  The tab stops: a row has [tabIndex] 0 exactly when it is the
    selected row and selectable, and none exactly when it is not selectable;
    the grid has [tabIndex] 0 exactly when no row is selected and the list is
    not empty, and then every selectable row of index 0 or more has
    [tabIndex] -1. *)
Theorem single_tab_stop {A E : Type} (props : Props.IListProps A)
    (rest : RenderProps.t E) (i : Instance) (width height : Z) (w : World) :
  (forall r, rowTabIndex (renderRow props rest i r) = Some 0 <->
             r = Props.selectedRow props /\ canSelectRow props r = true)
  /\ (forall r, rowTabIndex (renderRow props rest i r) = None <->
                canSelectRow props r = false)
  /\ (gridTabIndex (value (renderGrid props width height w)) = 0 <->
      Props.selectedRow props < 0 /\ 0 < Props.rowCount props)
  /\ (gridTabIndex (value (renderGrid props width height w)) = 0 ->
      forall r, 0 <= r ->
        rowTabIndex (renderRow props rest i r)
        = if canSelectRow props r then Some (-1) else None).
Proof.
  assert (Hrow : forall r, rowTabIndex (renderRow props rest i r) = Some 0 <->
             r = Props.selectedRow props /\ canSelectRow props r = true).
  { intros r. unfold renderRow. cbn [rowTabIndex].
    destruct (canSelectRow props r);
      destruct (Z.eqb_spec r (Props.selectedRow props));
      (split; [intros H|intros [H1 H2]]);
      try discriminate; try congruence; auto. }
  assert (Hgrid : gridTabIndex (value (renderGrid props width height w)) = 0 <->
            Props.selectedRow props < 0 /\ 0 < Props.rowCount props).
  { unfold renderGrid. run_method. cbn [gridTabIndex].
    destruct (Z.ltb_spec (Props.selectedRow props) 0),
             (Z.gtb_spec (Props.rowCount props) 0); cbn;
      split; intros Hx; try discriminate; try lia; reflexivity. }
  split; [exact Hrow|]. split; [|split; [exact Hgrid|]].
  - intros r. unfold renderRow. cbn [rowTabIndex].
    destruct (canSelectRow props r); split; intros Hx;
      try discriminate; reflexivity.
  - intros Hg r Hr. apply Hgrid in Hg. unfold renderRow. cbn [rowTabIndex].
    destruct (Z.eqb_spec r (Props.selectedRow props)); [lia|reflexivity].
Qed.

Lemma single_tab_stop_witness :
  rowTabIndex (renderRow (sampleProps (-1)) sampleRest (inst sampleWorld) 1)
  = if canSelectRow (sampleProps (-1)) 1 then Some (-1) else None.
Proof.
  apply (proj2 (proj2 (proj2 (single_tab_stop (sampleProps (-1)) sampleRest
                                (inst sampleWorld) 640 480 sampleWorld))));
    [reflexivity|lia].
Defined.

(** ** Scrolling, continued *)

(** X21.  [onScroll] tells a supplied [props.onScroll] of every scroll of the
    grid, once and before anything else, echo or not; off Windows, or without
    a fake scroll bar, it does nothing else: the instance is as it was and no
    scroll position is assigned. *)
Theorem onScroll_forwards {A : Type} (WIN32 : bool)
    (props : Props.IListProps A) (scrollTop clientHeight : Z) (w : World) :
  let handled := onScroll WIN32 props scrollTop clientHeight w in
  (Props.onScroll props = true ->
   exists rest, effects handled = CallOnScroll scrollTop clientHeight :: rest
     /\ forall t c, ~ In (CallOnScroll t c) rest)
  /\ (WIN32 = false \/ fakeScroll (inst w) = None ->
      after handled = w /\ scrollWrites (effects handled) = []).
Proof.
  cbv zeta. split.
  - intros Hcb. unfold onScroll. run_method. rewrite Hcb. cbn.
    eexists. split; [reflexivity|].
    intros t c Hin.
    destruct (if WIN32 then fakeScroll (inst w) else None);
      [destruct (lastScroll (inst w)) as [[|]|]|]; cbn in Hin;
      intuition discriminate.
  - intros Hoff.
    destruct (onScroll_run WIN32 props scrollTop clientHeight w) as (Hw & _).
    split; [|rewrite Hw; unfold onScroll_writes;
             destruct Hoff as [-> | ->]; [|destruct WIN32]; reflexivity].
    unfold onScroll.
    destruct Hoff as [-> | Hno]; [|destruct WIN32]; run_method;
      rewrite ?Hno; destruct (Props.onScroll props); cbn; rewrite ?Hno;
      reflexivity.
Qed.

Lemma onScroll_forwards_witness :
  let handled := onScroll false (sampleProps 0) 40 300 sampleWorld in
  after handled = sampleWorld /\ scrollWrites (effects handled) = [].
Proof.
  apply (proj2 (onScroll_forwards false (sampleProps 0) 40 300 sampleWorld)).
  left. reflexivity.
Defined.

(** X22.  When the grid scrolls to where the fake scroll bar already is, the
    assignment moves nothing, no echo comes, and [lastScroll] stays 'grid';
    the next scroll of the fake scroll bar is then taken for that echo: it is
    not mirrored to the grid and only clears the flag. *)
Theorem unanswered_mirror_drops_next_scroll {A : Type}
    (props : Props.IListProps A) (w : World) (d : Dom) (fake : HTMLElement)
    (scrollTop clientHeight nextScrollTop : Z) (fuel fuel' : nat) :
  fakeScroll (inst w) = Some fake ->
  lastScroll (inst w) <> Some fake_scroller ->
  snd (assignScrollTop d fake scrollTop) = None ->
  (1 <= fuel)%nat -> (1 <= fuel')%nat ->
  let first := pump true props fuel
                 {| dom := d; queue := [GridScroll scrollTop clientHeight];
                    world := w; trace := [] |} in
  let second := pump true props fuel'
                  {| dom := dom first; queue := [FakeScroll nextScrollTop];
                     world := world first; trace := [] |} in
  queue first = []
  /\ scrollWrites (trace first) = [(fake, scrollTop)]
  /\ lastScroll (inst (world first)) = Some grid_scroller
  /\ queue second = []
  /\ trace second = []
  /\ lastScroll (inst (world second)) = None.
Proof.
  intros Hfake Hlast Hstay Hfuel Hfuel'.
  destruct fuel as [|fuel]; [lia|]. destruct fuel' as [|fuel']; [lia|].
  cbv zeta.
  rewrite (pump_step true props fuel _ (GridScroll scrollTop clientHeight) [])
    by reflexivity.
  cbv zeta. cbn [world dom trace handleScroll app].
  destruct (onScroll_run true props scrollTop clientHeight w) as (Hw & Hi).
  rewrite Hw. unfold onScroll_writes, onScroll_inst in *. rewrite Hfake in *.
  assert (Hflag : inst (after (onScroll true props scrollTop clientHeight w))
                  = set_lastScroll (Some grid_scroller) (inst w)
                  /\ match lastScroll (inst w) with
                     | Some fake_scroller => []
                     | _ => [(fake, scrollTop)]
                     end = [(fake, scrollTop)]).
  { rewrite Hi. destruct (lastScroll (inst w)) as [[|]|]; try congruence;
      split; reflexivity. }
  destruct Hflag as (Hinst & ->).
  rewrite settleWrites_one, Hstay. cbn [fst snd app].
  rewrite pump_idle by reflexivity. cbn [queue trace world dom].
  assert (Hwrites :
    scrollWrites (effects (onScroll true props scrollTop clientHeight w))
    = [(fake, scrollTop)]).
  { rewrite Hw. destruct (lastScroll (inst w)) as [[|]|]; congruence. }
  split; [reflexivity|]. split; [exact Hwrites|].
  split; [rewrite Hinst; reflexivity|].
  rewrite (pump_step true props fuel' _ (FakeScroll nextScrollTop) [])
    by reflexivity.
  cbv zeta. cbn [world dom trace handleScroll app].
  destruct (onFakeScroll_echo nextScrollTop
              (after (onScroll true props scrollTop clientHeight w)))
    as (Heff & Hclear); [rewrite Hinst; reflexivity|].
  rewrite Heff. cbn [scrollWrites]. rewrite settleWrites_nil.
  rewrite pump_idle by reflexivity. cbn [queue trace world].
  repeat split. exact Hclear.
Qed.

Lemma unanswered_mirror_drops_next_scroll_witness :
  let first := pump true (sampleProps 0) 1
                 {| dom := alignedDom; queue := [GridScroll 40 300];
                    world := sampleWorld; trace := [] |} in
  let second := pump true (sampleProps 0) 1
                  {| dom := dom first; queue := [FakeScroll 500];
                     world := world first; trace := [] |} in
  queue first = []
  /\ scrollWrites (trace first) = [(3, 40)]
  /\ lastScroll (inst (world first)) = Some grid_scroller
  /\ queue second = []
  /\ trace second = []
  /\ lastScroll (inst (world second)) = None.
Proof.
  apply (unanswered_mirror_drops_next_scroll (sampleProps 0) sampleWorld
           alignedDom 3 40 300 500 1 1);
    [reflexivity|discriminate|reflexivity|apply le_n|apply le_n].
Defined.
